(** * Climate & natural-disaster pipeline: a shallow embedding

    This development embeds [climate_disasters_pipeline.py] (the loaders,
    the annual aggregation, the outer merge and the summariser) and proves
    properties of it.

    Conventions of the embedding.

    - A data frame is a list of rows, a row is a record whose fields carry
      the column names of the source.
    - A cell of a frame read by [pd.read_csv] is a Python value [pyval]:
      the missing marker [NaN], a number [Flt], or a text [Str].
    - Floating point numbers are idealised as exact rationals ([Qc], the
      rationals in lowest terms, whose equality is Leibniz equality), so a
      [float64] is either [NaN] (written [None]) or a rational.  Rounding
      and infinities are outside the model.  The cast of the year column
      to [int] has its 64-bit behaviour: a number beyond the range of
      [int64] wraps to the smallest [int64], an integer text beyond it
      raises [OverflowError].
    - A Python exception is a result [Raise e]; the loaders live in the
      error monad [result].
    - The parsers that pandas and Python supply (date parsing, numeric
      parsing of a text, [int] of a text, the square root) are the fields of
      the class [PandasRuntime]; every definition and theorem is
      parametric in them. *)

From Stdlib Require Import Ascii String ZArith QArith Qcanon List Bool Lia.
From Stdlib Require Import Sorted Permutation.
Import ListNotations.

Local Open Scope Z_scope.

(** ** Numbers *)

(** [float64]: [None] is NaN. *)
Definition float64 : Type := option Qc.

Definition Z2Qc (z : Z) : Qc := Q2Qc (inject_Z z).

(** Conversion of a float to an integer, as [astype(int)] does it on a
    finite float: truncation toward zero. *)
Definition Qc_trunc (q : Qc) : Z := Z.quot (Qnum q) (Zpos (Qden q)).

(** The range of [int64], the type that [astype(int)] casts to. *)
Definition int64_min : Z := -9223372036854775808.

Definition int64_max : Z := 9223372036854775807.

Definition in_int64 (z : Z) : bool := (int64_min <=? z) && (z <=? int64_max).

Definition Qc_leb (x y : Qc) : bool := Qle_bool x y.

Definition Qc_eqb (x y : Qc) : bool := Qeq_bool x y.

(** ** Python values and exceptions *)

Inductive pyval : Type :=
| NaN : pyval
| Flt : Qc -> pyval
| Str : string -> pyval.

Definition notna (v : pyval) : bool :=
  match v with NaN => false | _ => true end.

Definition pyval_eqb (a b : pyval) : bool :=
  match a, b with
  | NaN, NaN => true
  | Flt x, Flt y => Qc_eqb x y
  | Str s, Str t => String.eqb s t
  | _, _ => false
  end.

Inductive exn : Type := TypeError | ValueError | OverflowError.

Inductive result (A : Type) : Type :=
| Ok : A -> result A
| Raise : exn -> result A.
Arguments Ok {A} _.
Arguments Raise {A} _.

Definition bind {A B : Type} (m : result A) (k : A -> result B) : result B :=
  match m with
  | Ok a => k a
  | Raise e => Raise e
  end.

Notation "x <- m ;; k" := (bind m (fun x => k))
  (at level 61, m at next level, right associativity).

(** A vectorised operation raises as soon as one element does. *)
Fixpoint mapM {A B : Type} (f : A -> result B) (l : list A) : result (list B) :=
  match l with
  | [] => Ok []
  | a :: l' => b <- f a ;; bs <- mapM f l' ;; Ok (b :: bs)
  end.

(** ** What pandas and Python supply *)

(** A [Timestamp]; its year, which [.dt.year] delivers as a 32-bit
    integer, fits 64 bits. *)
Record Timestamp : Type := mkTimestamp {
  ts_year : Z;
  ts_month : Z;
  ts_day : Z;
  ts_year_int64 : in_int64 ts_year = true
}.

Class PandasRuntime : Type := {
  (** [to_datetime col v]: the entry that
      [pd.to_datetime(col, errors="coerce")] holds where [col] holds [v];
      [None] is NaT.  It takes the whole column because pandas infers the
      date format from the column. *)
  to_datetime : list pyval -> pyval -> option Timestamp;
  (** what [pd.to_numeric(_, errors="coerce")] makes of a text; [None] is
      NaN. *)
  numeric_of_text : string -> option Qc;
  (** Python's [int(s)] on a text, of any size; [None] is a
      [ValueError]. *)
  int_of_text : string -> option Z;
  (** the square root of floats. *)
  sqrt : Qc -> Qc
}.

(** ** Table primitives *)

Section Tables.
Context {A : Type}.

(** Stable insertion sort along a boolean order. *)
Fixpoint insert_by (leb : A -> A -> bool) (a : A) (l : list A) : list A :=
  match l with
  | [] => [a]
  | b :: l' => if leb a b then a :: l else b :: insert_by leb a l'
  end.

Definition sort_by (leb : A -> A -> bool) (l : list A) : list A :=
  fold_right (insert_by leb) [] l.

(** [df.sort_values("year")] for a key column of integers: ascending.
    The order of rows of equal key, which pandas leaves to the sorting
    algorithm, is the order they had. *)
Definition sort_values (key : A -> Z) (l : list A) : list A :=
  sort_by (fun a b => key a <=? key b) l.
End Tables.

(** The group keys of a [groupby]: the distinct values, ascending
    ([sort=True] is the default). *)
Fixpoint insert_uniq (k : Z) (l : list Z) : list Z :=
  match l with
  | [] => [k]
  | k' :: l' =>
      if k <? k' then k :: l
      else if k =? k' then l
      else k' :: insert_uniq k l'
  end.

Definition unique_sorted (ks : list Z) : list Z := fold_right insert_uniq [] ks.

(** [df.groupby(key)]: every group key with its rows, in frame order. *)
Definition groupby {A : Type} (key : A -> Z) (rows : list A) : list (Z * list A) :=
  map (fun k => (k, filter (fun r => key r =? k) rows))
      (unique_sorted (map key rows)).

(** ** Reductions of a float column

    The reductions of [pandas.core.nanops] with [skipna=True], the default
    of [Series.count], [sum], [mean], [std], [min], [median] and [max]:
    missing entries are masked, not removed. *)

Definition isna (x : float64) : bool :=
  match x with None => true | Some _ => false end.

Definition Qc_sum (l : list Qc) : Qc := fold_right Qcplus 0%Qc l.

(** [Series.count()]: the number of entries that are not missing. *)
Definition count (col : list float64) : Z :=
  fold_right (fun x n => if isna x then n else n + 1) 0 col.

(** [nansum]: the missing entries are filled with 0, then all is summed;
    an empty or all-missing column sums to 0 ([min_count=0]). *)
Definition nansum (col : list float64) : Qc :=
  Qc_sum (map (fun x => match x with Some q => q | None => 0%Qc end) col).

(** [nanmean]: [nansum / count], NaN when nothing is counted. *)
Definition nanmean (col : list float64) : float64 :=
  let c := count col in
  if c =? 0 then None else Some (nansum col / Z2Qc c)%Qc.

(** [nanvar]: NaN when [count <= ddof]; otherwise the squared deviations
    from the mean, 0 at the masked positions, summed and divided by
    [count - ddof]. *)
Definition nanvar (ddof : Z) (col : list float64) : float64 :=
  let c := count col in
  if c <=? ddof then None
  else
    let avg := (nansum col / Z2Qc c)%Qc in
    let sqr := map (fun x => match x with
                             | Some q => ((avg - q) * (avg - q))%Qc
                             | None => 0%Qc
                             end) col in
    Some (Qc_sum sqr / Z2Qc (c - ddof))%Qc.

Definition nanstd `{RT : PandasRuntime} (ddof : Z) (col : list float64) : float64 :=
  option_map sqrt (nanvar ddof col).

(** [nanmin] and [nanmax]: a missing entry never wins; NaN when every
    entry is missing. *)
Definition nanmin (col : list float64) : float64 :=
  fold_right (fun x acc =>
                match x, acc with
                | None, _ => acc
                | Some q, None => Some q
                | Some q, Some a => Some (if Qc_leb q a then q else a)
                end) None col.

Definition nanmax (col : list float64) : float64 :=
  fold_right (fun x acc =>
                match x, acc with
                | None, _ => acc
                | Some q, None => Some q
                | Some q, Some a => Some (if Qc_leb a q then q else a)
                end) None col.

(** The entries that are not missing, in order. *)
Definition dropna_values (col : list float64) : list Qc :=
  flat_map (fun x => match x with Some q => [q] | None => [] end) col.

(** [nanmedian]: the median of the entries that are not missing: the
    middle one of the sorted values, or the mean of the two middle ones. *)
Definition nanmedian (col : list float64) : float64 :=
  let s := sort_by Qc_leb (dropna_values col) in
  let n := length s in
  match n with
  | O => None
  | _ =>
      if Nat.odd n then Some (nth (n / 2) s 0%Qc)
      else Some ((nth (n / 2 - 1) s 0%Qc + nth (n / 2) s 0%Qc) / Z2Qc 2)%Qc
  end.

(** [Series.value_counts()]: the distinct values that are not missing, each
    with the number of its occurrences, by descending count.  Values of
    equal count, whose order pandas leaves open, come in order of first
    appearance. *)
Fixpoint distinct (l : list pyval) : list pyval :=
  match l with
  | [] => []
  | a :: l' => a :: filter (fun b => negb (pyval_eqb a b)) (distinct l')
  end.

Definition occurrences (v : pyval) (l : list pyval) : Z :=
  Z.of_nat (length (filter (pyval_eqb v) l)).

Definition value_counts (col : list pyval) : list (pyval * Z) :=
  let vals := filter notna col in
  sort_by (fun p q => snd q <=? snd p)
          (map (fun v => (v, occurrences v vals)) (distinct vals)).

(** ** The source files

    One record per CSV file, with the columns the pipeline reads. *)

Record gia_row : Type := {
  gia_Year : pyval;
  gia_Average_Fahrenheit_Temperature : pyval
}.

Record berk_row : Type := {
  berk_dt : pyval;
  berk_LandAndOceanAverageTemperature : pyval
}.

Record josep_row : Type := {
  josep_EventDate : pyval;
  josep_TemperatureFahrenheit : pyval
}.

Record bar_row : Type := {
  bar_EventDate : pyval;
  bar_Var5 : pyval
}.

Record shrey_row : Type := {
  shrey_Date : pyval;
  shrey_DisasterType : pyval
}.

(** ** The tables of the pipeline *)

Inductive temp_source : Type := Gia_Bach_Nguyen | Berkeley_Earth | Josep_Ferrer.

Inductive disaster_source : Type := Baris_Dincer | Shreyansh_Dangi.

(** A row of the three-column frames that are concatenated, before
    cleaning: [year] and [TempF] are still cells. *)
Record temp_raw : Type := {
  raw_year : pyval;
  raw_TempF : pyval;
  raw_source : temp_source
}.

(** A row of [temps_all]: [year] has been cast to an integer. *)
Record temp_row : Type := {
  t_year : Z;
  t_TempF : pyval;
  t_source : temp_source
}.

Record disaster_raw : Type := {
  raw_event_date : option Timestamp;
  raw_d_year : pyval;
  raw_disaster_type : pyval;
  raw_d_source : disaster_source
}.

(** A row of [disasters_all]. *)
Record disaster_row : Type := {
  d_event_date : option Timestamp;
  d_year : Z;
  d_disaster_type : pyval;
  d_source : disaster_source
}.

(** A row of [merged]. *)
Record merged_row : Type := {
  m_year : Z;
  m_TempF : float64;
  m_disaster_count : float64
}.

(** The dictionary that [compute_disaster_summary] returns. *)
Record summary : Type := {
  Count : float64;
  Mean : float64;
  StdDev : float64;
  Min : float64;
  Median : float64;
  Max : float64;
  Sum : float64
}.

(** ** Element-wise operations of the loaders *)

(** [date.dt.year]: NaN where the date is NaT. *)
Definition dt_year (d : option Timestamp) : pyval :=
  match d with
  | Some ts => Flt (Z2Qc (ts_year ts))
  | None => NaN
  end.

(** [c * 9 / 5 + 32] on a cell.  On a text, [* 9] repeats it and [/ 5]
    then raises a [TypeError]. *)
Definition celsius_to_fahrenheit (c : pyval) : result pyval :=
  match c with
  | NaN => Ok NaN
  | Flt q => Ok (Flt (q * Z2Qc 9 / Z2Qc 5 + Z2Qc 32)%Qc)
  | Str _ => Raise TypeError
  end.

(** [pd.to_numeric(_, errors="coerce")] on a cell. *)
Definition to_numeric `{RT : PandasRuntime} (v : pyval) : pyval :=
  match v with
  | NaN => NaN
  | Flt q => Flt q
  | Str s => match numeric_of_text s with Some q => Flt q | None => NaN end
  end.

(** [astype(int)] on a cell, the target being [int64].  A float is
    truncated toward zero; one beyond the range of [int64] is cast, without
    an exception, to the least [int64] (as the x86-64 conversion does).  A
    text goes through [int], and an integer that does not fit raises an
    [OverflowError]. *)
Definition astype_int `{RT : PandasRuntime} (v : pyval) : result Z :=
  match v with
  | Flt q =>
      if in_int64 (Qc_trunc q) then Ok (Qc_trunc q) else Ok int64_min
  | Str s =>
      match int_of_text s with
      | Some z => if in_int64 z then Ok z else Raise OverflowError
      | None => Raise ValueError
      end
  | NaN => Raise ValueError
  end.

(** A cell as an operand of a numeric reduction: a text is a
    [TypeError]. *)
Definition as_float64 (v : pyval) : result float64 :=
  match v with
  | NaN => Ok None
  | Flt q => Ok (Some q)
  | Str _ => Raise TypeError
  end.

(** The mean of one group of [groupby(...)["TempF"].mean()]. *)
Definition group_mean (g : list temp_row) : result float64 :=
  xs <- mapM as_float64 (map t_TempF g) ;;
  Ok (nanmean xs).

(** ** The pipeline *)

Section Pipeline.
Context `{RT : PandasRuntime}.

(** Gia: annual averages in Fahrenheit, two columns renamed. *)
Definition temps_gia (gia : list gia_row) : list temp_raw :=
  map (fun r => {| raw_year := gia_Year r;
                   raw_TempF := gia_Average_Fahrenheit_Temperature r;
                   raw_source := Gia_Bach_Nguyen |}) gia.

(** Berkeley Earth: monthly temperatures, Celsius to Fahrenheit. *)
Definition temps_berk (berk : list berk_row) : result (list temp_raw) :=
  let date := to_datetime (map berk_dt berk) in
  mapM (fun r =>
          f <- celsius_to_fahrenheit (berk_LandAndOceanAverageTemperature r) ;;
          Ok {| raw_year := dt_year (date (berk_dt r));
                raw_TempF := f;
                raw_source := Berkeley_Earth |}) berk.

(** Josep Ferrer: monthly temperatures in Fahrenheit. *)
Definition temps_josep (josep : list josep_row) : list temp_raw :=
  let date := to_datetime (map josep_EventDate josep) in
  map (fun r => {| raw_year := dt_year (date (josep_EventDate r));
                   raw_TempF := to_numeric (josep_TemperatureFahrenheit r);
                   raw_source := Josep_Ferrer |}) josep.

(** [dropna(subset=["year", "TempF"])]. *)
Definition dropna_temps (l : list temp_raw) : list temp_raw :=
  filter (fun r => notna (raw_year r) && notna (raw_TempF r)) l.

(** [temps_all["year"].astype(int)], row by row. *)
Definition temp_year_astype_int (r : temp_raw) : result temp_row :=
  y <- astype_int (raw_year r) ;;
  Ok {| t_year := y; t_TempF := raw_TempF r; t_source := raw_source r |}.

(** [groupby("year", as_index=False)["TempF"].mean()]. *)
Definition groupby_year_mean (temps_all : list temp_row)
  : result (list (Z * float64)) :=
  mapM (fun kg => m <- group_mean (snd kg) ;; Ok (fst kg, m))
       (groupby t_year temps_all).

Definition load_temperature_data
    (gia : list gia_row) (berk : list berk_row) (josep : list josep_row)
  : result (list temp_row * list (Z * float64)) :=
  let temps_gia := temps_gia gia in
  temps_berk <- temps_berk berk ;;
  let temps_josep := temps_josep josep in
  let temps_all := temps_gia ++ temps_berk ++ temps_josep in
  let temps_all := dropna_temps temps_all in
  temps_all <- mapM temp_year_astype_int temps_all ;;
  temps_annual <- groupby_year_mean temps_all ;;
  Ok (temps_all, sort_values fst temps_annual).

(** Baris Dincer: [Var5] is the disaster type. *)
Definition dis_bar_std (bar : list bar_row) : list disaster_raw :=
  let date := to_datetime (map bar_EventDate bar) in
  map (fun r => {| raw_event_date := date (bar_EventDate r);
                   raw_d_year := dt_year (date (bar_EventDate r));
                   raw_disaster_type := bar_Var5 r;
                   raw_d_source := Baris_Dincer |}) bar.

(** Shreyansh Dangi. *)
Definition dis_shrey_std (shrey : list shrey_row) : list disaster_raw :=
  let date := to_datetime (map shrey_Date shrey) in
  map (fun r => {| raw_event_date := date (shrey_Date r);
                   raw_d_year := dt_year (date (shrey_Date r));
                   raw_disaster_type := shrey_DisasterType r;
                   raw_d_source := Shreyansh_Dangi |}) shrey.

(** [dropna(subset=["year", "disaster_type"])]. *)
Definition dropna_disasters (l : list disaster_raw) : list disaster_raw :=
  filter (fun r => notna (raw_d_year r) && notna (raw_disaster_type r)) l.

(** [disasters_all["year"].astype(int)], row by row. *)
Definition disaster_year_astype_int (r : disaster_raw) : result disaster_row :=
  y <- astype_int (raw_d_year r) ;;
  Ok {| d_event_date := raw_event_date r;
        d_year := y;
        d_disaster_type := raw_disaster_type r;
        d_source := raw_d_source r |}.

(** [groupby("year", as_index=False).size()], the column renamed to
    [disaster_count]. *)
Definition groupby_year_size (disasters_all : list disaster_row)
  : list (Z * Z) :=
  map (fun kg => (fst kg, Z.of_nat (length (snd kg))))
      (groupby d_year disasters_all).

Definition load_disaster_data (bar : list bar_row) (shrey : list shrey_row)
  : result (list disaster_row * list (Z * Z)) :=
  let dis_bar_std := dis_bar_std bar in
  let dis_shrey_std := dis_shrey_std shrey in
  let disasters_all := dis_bar_std ++ dis_shrey_std in
  let disasters_all := dropna_disasters disasters_all in
  disasters_all <- mapM disaster_year_astype_int disasters_all ;;
  let disasters_per_year :=
    sort_values fst (groupby_year_size disasters_all) in
  Ok (disasters_all, disasters_per_year).

(** [pd.merge(temps_annual, disasters_per_year, on="year", how="outer")]:
    the keys of both frames, ascending; for each key the product of the
    rows of the two frames that carry it, a frame without such a row
    contributing one missing value. *)
Definition merge_outer (temps_annual : list (Z * float64))
    (disasters_per_year : list (Z * Z)) : list merged_row :=
  flat_map
    (fun k =>
       let ls := filter (fun p => fst p =? k) temps_annual in
       let rs := filter (fun p => fst p =? k) disasters_per_year in
       match ls, rs with
       | _, [] =>
           map (fun p => {| m_year := k; m_TempF := snd p;
                            m_disaster_count := None |}) ls
       | [], _ =>
           map (fun q => {| m_year := k; m_TempF := None;
                            m_disaster_count := Some (Z2Qc (snd q)) |}) rs
       | _, _ =>
           flat_map
             (fun p =>
                map (fun q => {| m_year := k; m_TempF := snd p;
                                 m_disaster_count := Some (Z2Qc (snd q)) |})
                    rs) ls
       end)
    (unique_sorted (map fst temps_annual ++ map fst disasters_per_year)).

Definition merged_of (temps_annual : list (Z * float64))
    (disasters_per_year : list (Z * Z)) : list merged_row :=
  sort_values m_year (merge_outer temps_annual disasters_per_year).

Definition build_merged_dataset
    (gia : list gia_row) (berk : list berk_row) (josep : list josep_row)
    (bar : list bar_row) (shrey : list shrey_row)
  : result (list (Z * float64) * list (Z * Z) * list merged_row) :=
  ta <- load_temperature_data gia berk josep ;;
  dy <- load_disaster_data bar shrey ;;
  let temps_annual := snd ta in
  let disasters_per_year := snd dy in
  let merged := merged_of temps_annual disasters_per_year in
  Ok (temps_annual, disasters_per_year, merged).

Definition compute_disaster_summary (merged : list merged_row) : summary :=
  let dc := map m_disaster_count merged in
  {| Count := Some (Z2Qc (count dc));
     Mean := nanmean dc;
     StdDev := nanstd 1 dc;
     Min := nanmin dc;
     Median := nanmedian dc;
     Max := nanmax dc;
     Sum := Some (nansum dc) |}.

Definition disaster_type_counts (disasters_all : list disaster_row)
  : list (pyval * Z) :=
  value_counts (map d_disaster_type disasters_all).
End Pipeline.

(** ** A reference runtime

    A small executable instance of [PandasRuntime], used to run the
    pipeline on concrete frames.  It knows one date format, ISO
    [YYYY-MM-DD] with the years 1 to 9999, and so stands for pandas on
    columns that hold ISO dates and texts that are no dates; decimal
    numbers with an optional sign and fraction; and a square root that is
    exact on the squares of rationals. *)

Definition digit_of (c : ascii) : option Z :=
  let n := Z.of_nat (nat_of_ascii c) in
  if (48 <=? n) && (n <=? 57) then Some (n - 48) else None.

Fixpoint digits_from (acc : Z) (s : string) : option Z :=
  match s with
  | EmptyString => Some acc
  | String c s' =>
      match digit_of c with
      | Some d => digits_from (acc * 10 + d) s'
      | None => None
      end
  end.

Definition digits (s : string) : option Z :=
  match s with
  | EmptyString => None
  | _ => digits_from 0 s
  end.

Definition signed (p : string -> option Qc) (s : string) : option Qc :=
  match s with
  | String "-"%char s' => option_map Qcopp (p s')
  | _ => p s
  end.

Definition ref_int_of_text (s : string) : option Z :=
  match s with
  | String "-"%char s' => option_map Z.opp (digits s')
  | _ => digits s
  end.

(** [split_dot s]: the text before the first dot, and the text after it
    when there is a dot. *)
Fixpoint split_dot (s : string) : string * option string :=
  match s with
  | EmptyString => (EmptyString, None)
  | String "."%char s' => (EmptyString, Some s')
  | String c s' => let (a, b) := split_dot s' in (String c a, b)
  end.

Definition unsigned_decimal (s : string) : option Qc :=
  match split_dot s with
  | (a, None) => option_map Z2Qc (digits a)
  | (a, Some b) =>
      match digits a, digits b with
      | Some i, Some f =>
          Some (Z2Qc i + Z2Qc f / Z2Qc (10 ^ Z.of_nat (String.length b)))%Qc
      | _, _ => None
      end
  end.

Definition ref_numeric_of_text (s : string) : option Qc := signed unsigned_decimal s.

Definition make_timestamp (y m d : Z) : option Timestamp :=
  match bool_dec (in_int64 y) true with
  | left fits => Some (mkTimestamp y m d fits)
  | right _ => None
  end.

Definition ref_to_datetime (_ : list pyval) (v : pyval) : option Timestamp :=
  match v with
  | Str s =>
      if (String.length s =? 10)%nat
         && String.eqb (substring 4 1 s) "-" && String.eqb (substring 7 1 s) "-"
      then
        match digits (substring 0 4 s), digits (substring 5 2 s),
              digits (substring 8 2 s) with
        | Some y, Some m, Some d =>
            if (1 <=? y) && (y <=? 9999) && (1 <=? m) && (m <=? 12)
               && (1 <=? d) && (d <=? 31)
            then make_timestamp y m d else None
        | _, _, _ => None
        end
      else None
  | _ => None
  end.

Definition ref_sqrt (q : Qc) : Qc :=
  Q2Qc (Qmake (Z.sqrt (Qnum q)) (Z.to_pos (Z.sqrt (Zpos (Qden q))))).

Definition ref_runtime : PandasRuntime :=
  {| to_datetime := ref_to_datetime;
     numeric_of_text := ref_numeric_of_text;
     int_of_text := ref_int_of_text;
     sqrt := ref_sqrt |}.

(** ** Vocabulary of the statements *)

Definition pyval_eq_dec (a b : pyval) : {a = b} + {a <> b}.
Proof.
  decide equality; [apply Qc_eq_dec | apply string_dec].
Defined.

Definition Z_sum (l : list Z) : Z := fold_right Z.add 0 l.

(** [m] is the median of [xs]: the middle one of the values in ascending
    order, or the mean of the two middle ones. *)
Definition median_of (xs : list Qc) (m : Qc) : Prop :=
  exists s,
    Permutation s xs /\ StronglySorted Qcle s /\
    m = (if Nat.odd (length s) then nth (length s / 2) s 0%Qc
         else ((nth (length s / 2 - 1) s 0 + nth (length s / 2) s 0)
               / Z2Qc 2)%Qc).

(** A row of the Berkeley file is a reading of year [y]: its date parses
    (by [date]) to a day of year [y] and its temperature is not missing. *)
Definition berk_reading_in (date : pyval -> option Timestamp) (y : Z)
    (r : berk_row) : bool :=
  match date (berk_dt r) with
  | Some ts => ts_year ts =? y
  | None => false
  end && notna (berk_LandAndOceanAverageTemperature r).

(** The number of events of year [y] in a cleaned events table. *)
Definition events_in_year (disasters_all : list disaster_row) (y : Z) : Z :=
  Z.of_nat (length (filter (fun e => d_year e =? y) disasters_all)).

(** ** Sample frames

    Small inputs on which the pipeline is run in the examples below. *)

Definition ex_gia : list gia_row :=
  [ {| gia_Year := Flt (Z2Qc 2019);
       gia_Average_Fahrenheit_Temperature := Flt (Z2Qc 57) |} ].

Definition ex_berk : list berk_row :=
  [ {| berk_dt := Str "2020-03-01";
       berk_LandAndOceanAverageTemperature := Flt (Z2Qc 10) |};
    {| berk_dt := Str "2020-07-01";
       berk_LandAndOceanAverageTemperature := Flt (Z2Qc 20) |};
    {| berk_dt := Str "not a date";
       berk_LandAndOceanAverageTemperature := Flt (Z2Qc 15) |} ].

Definition ex_josep : list josep_row :=
  [ {| josep_EventDate := Str "2021-01-05";
       josep_TemperatureFahrenheit := Str "41.5" |};
    {| josep_EventDate := Str "2021-01-06";
       josep_TemperatureFahrenheit := Str "unknown" |} ].

Definition ex_bar : list bar_row :=
  [ {| bar_EventDate := Str "2021-01-05"; bar_Var5 := Str "Flood" |};
    {| bar_EventDate := Str "2021-02-05"; bar_Var5 := Str "Flood" |};
    {| bar_EventDate := Str "2022-02-05"; bar_Var5 := NaN |};
    {| bar_EventDate := Str "sometime"; bar_Var5 := Str "Storm" |} ].

Definition ex_shrey : list shrey_row :=
  [ {| shrey_Date := Str "2021-11-30"; shrey_DisasterType := Str "Storm" |} ].

Definition ex_temps_annual : list (Z * float64) := [ (2020, Some (Z2Qc 59)) ].

Definition ex_disasters_per_year : list (Z * Z) := [ (2021, 3) ].

(** A Berkeley file with a temperature that is not a number. *)
Definition ex_berk_text : list berk_row :=
  [ {| berk_dt := Str "2020-03-01";
       berk_LandAndOceanAverageTemperature := Str "abc" |} ].



(** A merged table whose [disaster_count] column is entirely missing. *)
Definition ex_merged_all_missing : list merged_row :=
  [ {| m_year := 2019; m_TempF := Some (Z2Qc 57); m_disaster_count := None |};
    {| m_year := 2020; m_TempF := Some (Z2Qc 59); m_disaster_count := None |} ].

(** ** File paths

    [os.path.join] as [posixpath] defines it: a component that starts with
    the separator discards what precedes it; otherwise it is appended, after
    a separator unless the path so far is empty or ends with one. *)

Definition starts_with_sep (s : string) : bool :=
  match s with
  | String "/"%char _ => true
  | _ => false
  end.

Fixpoint ends_with_sep (s : string) : bool :=
  match s with
  | EmptyString => false
  | String c EmptyString => Ascii.eqb c "/"%char
  | String _ s' => ends_with_sep s'
  end.

Definition path_join2 (path b : string) : string :=
  if starts_with_sep b then b
  else if String.eqb path "" || ends_with_sep path then (path ++ b)%string
  else (path ++ "/" ++ b)%string.

Definition path_join (a : string) (p : list string) : string :=
  fold_left path_join2 p a.

Definition DATA_DIR_NAME : string := path_join "Cleaned Data" ["Cleaned Data"%string].

(** Join base_path, data folder and filename into a full path. *)
Definition _csv_path (base_path filename : string) : string :=
  path_join base_path [DATA_DIR_NAME; filename].

(** ** The page of [app.py]

    The script renders widgets one after the other; an exception stops it
    and leaves the widgets rendered so far.  A run is the list of widgets
    rendered together with the outcome.  The five frames stand for the
    files under [BASE_PATH], which both loader calls of the script read. *)

Inductive chart_data : Type :=
| by_year : list (Z * list float64) -> chart_data
| by_value : list (pyval * Z) -> chart_data.

Inductive widget : Type :=
| st_title : string -> widget
| st_subheader : string -> widget
| st_line_chart : chart_data -> widget
| st_json : summary -> widget
| st_bar_chart : chart_data -> widget.

Section App.
Context `{RT : PandasRuntime}.

(** [merged.set_index("year")[["TempF", "disaster_count"]]]. *)
Definition indexed_TempF_disaster_count (merged : list merged_row) : chart_data :=
  by_year (map (fun r => (m_year r, [m_TempF r; m_disaster_count r])) merged).

(** [merged.set_index("year")["disaster_count"]]. *)
Definition indexed_disaster_count (merged : list merged_row) : chart_data :=
  by_year (map (fun r => (m_year r, [m_disaster_count r])) merged).

Definition app
    (gia : list gia_row) (berk : list berk_row) (josep : list josep_row)
    (bar : list bar_row) (shrey : list shrey_row)
  : list widget * result unit :=
  let page := [st_title "ENG 220 – Climate Change & Natural Disasters"] in
  (* Build main merged table *)
  match build_merged_dataset gia berk josep bar shrey with
  | Raise e => (page, Raise e)
  | Ok (temps_annual, disasters_per_year, merged) =>
      (* Load full disaster events for type counts *)
      match load_disaster_data bar shrey with
      | Raise e => (page, Raise e)
      | Ok (disasters_all, _) =>
          let summary_stats := compute_disaster_summary merged in
          let type_counts := disaster_type_counts disasters_all in
          (page ++
           [ st_subheader "Annual Temperature vs. Disaster Counts";
             st_line_chart (indexed_TempF_disaster_count merged);
             st_subheader "Summary Statistics (Disasters per Year)";
             st_json summary_stats;
             st_subheader "Most Common Disaster Types";
             st_bar_chart (by_value type_counts);
             st_subheader "Histogram of Disaster Counts per Year";
             st_bar_chart (indexed_disaster_count merged) ],
           Ok tt)
      end
  end.
End App.

(** ** Further vocabulary *)

(** What cleaning makes of one raw event: the row is kept when its date
    parsed and its type is not missing. *)
Definition clean_event (date : option Timestamp) (ty : pyval)
    (src : disaster_source) : list disaster_row :=
  match date with
  | Some ts =>
      if notna ty
      then [ {| d_event_date := Some ts; d_year := ts_year ts;
                d_disaster_type := ty; d_source := src |} ]
      else []
  | None => []
  end.

(** A raw row of the Baris (Shreyansh) file survives cleaning. *)
Definition bar_kept `{RT : PandasRuntime} (col : list pyval) (r : bar_row) : bool :=
  match to_datetime col (bar_EventDate r) with
  | Some _ => notna (bar_Var5 r)
  | None => false
  end.

Definition shrey_kept `{RT : PandasRuntime} (col : list pyval) (r : shrey_row) : bool :=
  match to_datetime col (shrey_Date r) with
  | Some _ => notna (shrey_DisasterType r)
  | None => false
  end.

(** The cleaned events of the two files: the kept rows of the Baris file,
    then those of the Shreyansh file, each in file order. *)
Definition cleaned_events `{RT : PandasRuntime}
    (bar : list bar_row) (shrey : list shrey_row) : list disaster_row :=
  flat_map (fun r => clean_event (to_datetime (map bar_EventDate bar)
                                              (bar_EventDate r))
                                 (bar_Var5 r) Baris_Dincer) bar ++
  flat_map (fun r => clean_event (to_datetime (map shrey_Date shrey)
                                              (shrey_Date r))
                                 (shrey_DisasterType r) Shreyansh_Dangi) shrey.

Definition is_text (v : pyval) : bool :=
  match v with Str _ => true | _ => false end.

(** The rows of a merged table whose year is among [years], with their
    temperature, NaN or not; and the rows that carry a count, with it. *)
Definition temperature_side (years : list Z) (merged : list merged_row)
    : list (Z * float64) :=
  flat_map (fun r => if existsb (Z.eqb (m_year r)) years
                     then [(m_year r, m_TempF r)]
                     else []) merged.

Definition disaster_side (merged : list merged_row) : list (Z * Qc) :=
  flat_map (fun r => match m_disaster_count r with
                     | Some c => [(m_year r, c)]
                     | None => []
                     end) merged.

(** A second set of sample files: a Gia file with a text temperature, and
    one with a year that [int] rejects. *)
Definition ex_gia_text : list gia_row :=
  [ {| gia_Year := Str "2019";
       gia_Average_Fahrenheit_Temperature := Str "warm" |} ].

Definition ex_gia_year_text : list gia_row :=
  [ {| gia_Year := Str "MMXIX";
       gia_Average_Fahrenheit_Temperature := Str "57.0" |} ].

(** * Properties *)

(** ** The error monad *)

Lemma bind_Ok {A B : Type} (m : result A) (k : A -> result B) (b : B) :
  bind m k = Ok b -> exists a, m = Ok a /\ k a = Ok b.
Proof.
  destruct m as [a|e]; simpl; intros E; [eauto | discriminate].
Qed.

Ltac inv_bind H :=
  let a := fresh "a" in
  let Ha := fresh "Ha" in
  apply bind_Ok in H; destruct H as (a & Ha & H).

Lemma mapM_Ok_Forall2 {A B : Type} (f : A -> result B) (l : list A) (r : list B) :
  mapM f l = Ok r -> Forall2 (fun a b => f a = Ok b) l r.
Proof.
  revert r; induction l as [|a l IH]; simpl; intros r E.
  - injection E as <-. constructor.
  - inv_bind E. inv_bind E. injection E as <-. constructor; auto.
Qed.

Lemma Forall2_map_eq {A B C : Type} (f : A -> C) (g : B -> C) (l : list A) (r : list B) :
  Forall2 (fun a b => f a = g b) l r -> map f l = map g r.
Proof.
  induction 1; simpl; congruence.
Qed.

(** ** Sorting *)

Section SortFacts.
Context {A : Type} (leb : A -> A -> bool).

Lemma insert_by_perm (a : A) (l : list A) :
  Permutation (insert_by leb a l) (a :: l).
Proof.
  induction l as [|b l IH]; simpl; [reflexivity|].
  destruct (leb a b); [reflexivity|].
  rewrite IH. apply perm_swap.
Qed.

Lemma sort_by_perm (l : list A) : Permutation (sort_by leb l) l.
Proof.
  induction l as [|a l IH]; simpl; [reflexivity|].
  rewrite insert_by_perm. now constructor.
Qed.

Lemma sort_by_In (l : list A) (a : A) : In a (sort_by leb l) <-> In a l.
Proof.
  split; apply Permutation_in; [|symmetry]; apply sort_by_perm.
Qed.

(** A list that is already in order is left as it is. *)
Lemma sort_by_sorted_id (l : list A) :
  Sorted (fun a b => leb a b = true) l -> sort_by leb l = l.
Proof.
  induction 1 as [|a l Hs IH Hd]; simpl; [reflexivity|].
  rewrite IH. destruct Hd as [|b l Hab]; simpl; [reflexivity|].
  now rewrite Hab.
Qed.

Hypothesis leb_total : forall a b, leb a b = true \/ leb b a = true.

Lemma insert_by_sorted (a : A) (l : list A) :
  Sorted (fun a b => leb a b = true) l ->
  Sorted (fun a b => leb a b = true) (insert_by leb a l).
Proof.
  induction 1 as [|b l Hs IH Hd]; simpl.
  - repeat constructor.
  - destruct (leb a b) eqn:E.
    + repeat constructor; auto.
    + constructor; [exact IH|].
      destruct Hd as [|c l Hbc]; simpl.
      * constructor. destruct (leb_total a b); congruence.
      * destruct (leb a c); constructor; auto.
        destruct (leb_total a b); congruence.
Qed.

Lemma sort_by_sorted (l : list A) :
  Sorted (fun a b => leb a b = true) (sort_by leb l).
Proof.
  induction l as [|a l IH]; simpl; [constructor|].
  now apply insert_by_sorted.
Qed.
End SortFacts.

Lemma Sorted_impl {A : Type} (R R' : A -> A -> Prop) (l : list A) :
  (forall a b, R a b -> R' a b) -> Sorted R l -> Sorted R' l.
Proof.
  intros HR. induction 1 as [|a l Hs IH Hd]; constructor; [assumption|].
  destruct Hd; constructor; auto.
Qed.

Lemma sort_values_id {A : Type} (key : A -> Z) (l : list A) :
  StronglySorted Z.lt (map key l) -> sort_values key l = l.
Proof.
  intros Hs. apply sort_by_sorted_id.
  apply StronglySorted_Sorted in Hs.
  induction l as [|a l IH]; [constructor|].
  simpl in Hs. apply Sorted_inv in Hs as [Hs Hd].
  constructor; [auto|].
  destruct l as [|b l]; constructor.
  apply HdRel_inv in Hd. apply Z.leb_le. lia.
Qed.

(** ** Group keys *)

Lemma insert_uniq_In (k x : Z) (l : list Z) :
  In x (insert_uniq k l) <-> x = k \/ In x l.
Proof.
  induction l as [|k' l IH]; simpl.
  - intuition.
  - destruct (Z.ltb_spec k k'); simpl; [intuition|].
    destruct (Z.eqb_spec k k'); simpl; [subst; intuition|].
    rewrite IH. intuition.
Qed.

Lemma insert_uniq_sorted (k : Z) (l : list Z) :
  Sorted Z.lt l -> Sorted Z.lt (insert_uniq k l).
Proof.
  induction 1 as [|k' l Hs IH Hd]; simpl.
  - repeat constructor.
  - destruct (Z.ltb_spec k k'); [repeat constructor; auto|].
    destruct (Z.eqb_spec k k'); [constructor; auto|].
    constructor; [exact IH|].
    destruct Hd as [|k'' l Hlt]; simpl.
    + constructor. lia.
    + destruct (Z.ltb_spec k k''); [constructor; lia|].
      destruct (Z.eqb_spec k k''); constructor; auto.
Qed.

Lemma unique_sorted_In (ks : list Z) (x : Z) :
  In x (unique_sorted ks) <-> In x ks.
Proof.
  induction ks as [|k ks IH]; simpl; [tauto|].
  rewrite insert_uniq_In, IH. intuition.
Qed.

Lemma unique_sorted_sorted (ks : list Z) : StronglySorted Z.lt (unique_sorted ks).
Proof.
  apply Sorted_StronglySorted; [exact Z.lt_trans|].
  induction ks as [|k ks IH]; simpl; [constructor|].
  now apply insert_uniq_sorted.
Qed.

Lemma StronglySorted_lt_NoDup (l : list Z) : StronglySorted Z.lt l -> NoDup l.
Proof.
  induction 1 as [|a l Hs IH Hall]; constructor; auto.
  intros Hin. rewrite Forall_forall in Hall. specialize (Hall a Hin). lia.
Qed.

(** ** Grouping *)

Lemma groupby_keys {A : Type} (key : A -> Z) (rows : list A) :
  map fst (groupby key rows) = unique_sorted (map key rows).
Proof.
  unfold groupby. rewrite map_map. simpl. apply map_id.
Qed.

Lemma groupby_In {A : Type} (key : A -> Z) (rows : list A) (k : Z) (g : list A) :
  In (k, g) (groupby key rows) <->
  In k (map key rows) /\ g = filter (fun r => key r =? k) rows.
Proof.
  unfold groupby. rewrite in_map_iff. split.
  - intros (k' & E & Hin). injection E as -> <-.
    now rewrite unique_sorted_In in Hin.
  - intros (Hin & ->). exists k. now rewrite unique_sorted_In.
Qed.

Lemma group_nonempty {A : Type} (key : A -> Z) (rows : list A) (k : Z) :
  In k (map key rows) <-> filter (fun r => key r =? k) rows <> [].
Proof.
  rewrite in_map_iff. split.
  - intros (r & <- & Hin) E.
    assert (Hr : In r (filter (fun r0 => key r0 =? key r) rows))
      by (apply filter_In; split; [auto | apply Z.eqb_refl]).
    rewrite E in Hr. destruct Hr.
  - intros Hne. destruct (filter _ rows) as [|r g] eqn:E; [congruence|].
    assert (Hr : In r (filter (fun r0 => key r0 =? k) rows))
      by (rewrite E; now left).
    apply filter_In in Hr as [Hin Hk]. apply Z.eqb_eq in Hk. eauto.
Qed.

(** ** Numbers *)

Lemma Qc_trunc_Z2Qc (z : Z) : Qc_trunc (Z2Qc z) = z.
Proof.
  unfold Qc_trunc, Z2Qc, Q2Qc, inject_Z.
  cbn [this]. rewrite Qred_identity by (cbn; apply Z.gcd_1_r).
  cbn. apply Z.quot_1_r.
Qed.

(** ** The disaster loader *)

Section DisasterLoader.
Context `{RT : PandasRuntime}.

Lemma mapM_total {A B : Type} (f : A -> result B) (l : list A) :
  (forall a, In a l -> exists b, f a = Ok b) -> exists r, mapM f l = Ok r.
Proof.
  induction l as [|a l IH]; simpl; intros Hf; [eauto|].
  destruct (Hf a) as (b & Eb); [auto|]. rewrite Eb. simpl.
  destruct IH as (r & Er); [auto|]. rewrite Er. simpl. eauto.
Qed.

(** What the two normalised frames hold: the year is the year of the
    parsed date. *)
Lemma dis_std_year (bar : list bar_row) (shrey : list shrey_row) (r : disaster_raw) :
  In r (dis_bar_std bar ++ dis_shrey_std shrey) ->
  raw_d_year r = dt_year (raw_event_date r).
Proof.
  unfold dis_bar_std, dis_shrey_std. rewrite in_app_iff, !in_map_iff.
  intros [(x & <- & _)|(x & <- & _)]; reflexivity.
Qed.

Lemma disaster_cast_of_kept (bar : list bar_row) (shrey : list shrey_row) (r : disaster_raw) :
  In r (dropna_disasters (dis_bar_std bar ++ dis_shrey_std shrey)) ->
  exists ts,
    raw_event_date r = Some ts /\
    disaster_year_astype_int r =
      Ok {| d_event_date := Some ts; d_year := ts_year ts;
            d_disaster_type := raw_disaster_type r;
            d_source := raw_d_source r |} /\
    notna (raw_disaster_type r) = true.
Proof.
  unfold dropna_disasters. rewrite filter_In. intros (Hin & Hk).
  apply andb_true_iff in Hk as (Hy & Ht).
  pose proof (dis_std_year _ _ _ Hin) as Ey.
  unfold disaster_year_astype_int. rewrite Ey in *.
  destruct (raw_event_date r) as [ts|]; simpl in *; [|discriminate].
  exists ts. rewrite Qc_trunc_Z2Qc, ts_year_int64. auto.
Qed.

(** The disaster loader never raises, and its aggregate is the table of
    group sizes as [groupby] delivers it: the final sort moves nothing. *)
Lemma load_disaster_data_Ok (bar : list bar_row) (shrey : list shrey_row) :
  exists da,
    load_disaster_data bar shrey = Ok (da, groupby_year_size da) /\
    Forall2 (fun r e => disaster_year_astype_int r = Ok e)
            (dropna_disasters (dis_bar_std bar ++ dis_shrey_std shrey)) da.
Proof.
  unfold load_disaster_data.
  destruct (mapM_total disaster_year_astype_int
              (dropna_disasters (dis_bar_std bar ++ dis_shrey_std shrey)))
    as (da & Eda).
  - intros r Hr. destruct (disaster_cast_of_kept _ _ _ Hr) as (ts & _ & E & _).
    eauto.
  - exists da. rewrite Eda. simpl. split.
    + rewrite sort_values_id; [reflexivity|].
      unfold groupby_year_size. rewrite map_map. simpl.
      change (map (fun x => fst x) (groupby d_year da))
        with (map fst (groupby d_year da)).
      rewrite groupby_keys. apply unique_sorted_sorted.
    + now apply mapM_Ok_Forall2.
Qed.

Lemma groupby_year_size_keys (da : list disaster_row) :
  map fst (groupby_year_size da) = unique_sorted (map d_year da).
Proof.
  unfold groupby_year_size. rewrite map_map. simpl. apply groupby_keys.
Qed.

Lemma groupby_year_size_In (da : list disaster_row) (y n : Z) :
  In (y, n) (groupby_year_size da) <-> n = events_in_year da y /\ 1 <= n.
Proof.
  unfold groupby_year_size, events_in_year. rewrite in_map_iff. split.
  - intros ((k & g) & E & Hin). simpl in E. injection E as -> <-.
    apply groupby_In in Hin as (Hk & ->). split; [reflexivity|].
    apply group_nonempty in Hk.
    destruct (filter _ da); [congruence | simpl; lia].
  - intros (-> & Hn).
    exists (y, filter (fun e => d_year e =? y) da). split; [reflexivity|].
    apply groupby_In. split; [|reflexivity].
    apply group_nonempty. intros E. rewrite E in Hn. simpl in Hn. lia.
Qed.
End DisasterLoader.

(** ** The temperature loader *)

Lemma Forall2_In_r {A B : Type} (R : A -> B -> Prop) (l : list A) (r : list B) (b : B) :
  Forall2 R l r -> In b r -> exists a, In a l /\ R a b.
Proof.
  induction 1 as [|a0 b0 l r H0 HF IH]; simpl; [tauto|].
  intros [<-|Hin]; [eauto|]. destruct (IH Hin) as (a & Ha & HR). eauto.
Qed.

Lemma Forall2_In_l {A B : Type} (R : A -> B -> Prop) (l : list A) (r : list B) (a : A) :
  Forall2 R l r -> In a l -> exists b, In b r /\ R a b.
Proof.
  induction 1 as [|a0 b0 l r H0 HF IH]; simpl; [tauto|].
  intros [<-|Hin]; [eauto|]. destruct (IH Hin) as (b & Hb & HR). eauto.
Qed.

Section TemperatureLoader.
Context `{RT : PandasRuntime}.

Lemma groupby_year_mean_keys (ta : list temp_row) (ann : list (Z * float64)) :
  groupby_year_mean ta = Ok ann ->
  map fst ann = unique_sorted (map t_year ta).
Proof.
  unfold groupby_year_mean. intros E. apply mapM_Ok_Forall2 in E.
  rewrite <- groupby_keys. symmetry.
  apply Forall2_map_eq.
  eapply Forall2_impl; [|exact E]. simpl.
  intros kg p Hp. inv_bind Hp. now injection Hp as <-.
Qed.

Lemma groupby_year_mean_In (ta : list temp_row) (ann : list (Z * float64))
    (y : Z) (m : float64) :
  groupby_year_mean ta = Ok ann ->
  (In (y, m) ann <->
   In y (map t_year ta) /\
   group_mean (filter (fun r => t_year r =? y) ta) = Ok m).
Proof.
  unfold groupby_year_mean. intros E. apply mapM_Ok_Forall2 in E. split.
  - intros Hin.
    destruct (Forall2_In_r _ _ _ _ E Hin) as ((k & g) & Hkg & Hp).
    simpl in Hp. inv_bind Hp. injection Hp as -> ->.
    apply groupby_In in Hkg as (Hk & ->). auto.
  - intros (Hy & Hm).
    assert (Hkg : In (y, filter (fun r => t_year r =? y) ta) (groupby t_year ta))
      by (apply groupby_In; auto).
    destruct (Forall2_In_l _ _ _ _ E Hkg) as (p & Hp & Ep).
    simpl in Ep. rewrite Hm in Ep. simpl in Ep. now injection Ep as <-.
Qed.

(** The stages that a successful run of the temperature loader went
    through; the final sort moved nothing. *)
Lemma load_temperature_data_inv (gia : list gia_row) (berk : list berk_row)
    (josep : list josep_row) (ta : list temp_row) (annual : list (Z * float64)) :
  load_temperature_data gia berk josep = Ok (ta, annual) ->
  exists tb,
    temps_berk berk = Ok tb /\
    Forall2 (fun r e => temp_year_astype_int r = Ok e)
            (dropna_temps (temps_gia gia ++ tb ++ temps_josep josep)) ta /\
    groupby_year_mean ta = Ok annual.
Proof.
  unfold load_temperature_data. intros E.
  inv_bind E. rename a into tb. inv_bind E. rename a into ta'.
  inv_bind E. rename a into ann. injection E as -> <-.
  exists tb. split; [assumption|]. split; [now apply mapM_Ok_Forall2|].
  rewrite sort_values_id; [assumption|].
  rewrite (groupby_year_mean_keys _ _ Ha1). apply unique_sorted_sorted.
Qed.
End TemperatureLoader.

(** ** The outer merge *)

Section Merge.
Context `{RT : PandasRuntime}.

(** In a frame with unique keys, a key selects no row or one row. *)
Lemma unique_key_rows {B : Type} (l : list (Z * B)) (k : Z) :
  NoDup (map fst l) ->
  (filter (fun p => fst p =? k) l = [] /\ ~ In k (map fst l)) \/
  (exists v, filter (fun p => fst p =? k) l = [(k, v)] /\
             forall v', In (k, v') l <-> v' = v).
Proof.
  induction l as [|(k0, v0) l IH]; simpl; intros Hnd.
  - left. split; [reflexivity | tauto].
  - apply NoDup_cons_iff in Hnd as (Hnotin & Hnd).
    destruct (Z.eqb_spec k0 k) as [->|Hne].
    + right. exists v0.
      destruct (IH Hnd) as [(E & _)|(v & E & Hv)].
      * rewrite E. split; [reflexivity|].
        intros v'. split; [|intros ->; now left].
        intros [Heq|Hin]; [congruence|].
        exfalso. apply Hnotin. apply in_map_iff. now exists (k, v').
      * exfalso. apply Hnotin. apply in_map_iff. exists (k, v).
        split; [reflexivity | now apply Hv].
    + destruct (IH Hnd) as [(E & Hn)|(v & E & Hv)].
      * left. split; [assumption|]. intros [?|?]; auto.
      * right. exists v. split; [assumption|].
        intros v'. rewrite <- Hv. split; [|now right].
        intros [Heq|Hin]; [congruence | assumption].
Qed.

(** The block of rows that the merge emits for key [k]. *)
Lemma merge_block (ta : list (Z * float64)) (dy : list (Z * Z)) (k : Z) :
  NoDup (map fst ta) -> NoDup (map fst dy) ->
  In k (map fst ta ++ map fst dy) ->
  exists t c,
    (match filter (fun p => fst p =? k) ta,
           filter (fun p => fst p =? k) dy with
     | _, [] =>
         map (fun p => {| m_year := k; m_TempF := snd p;
                          m_disaster_count := None |})
             (filter (fun p => fst p =? k) ta)
     | [], _ =>
         map (fun q => {| m_year := k; m_TempF := None;
                          m_disaster_count := Some (Z2Qc (snd q)) |})
             (filter (fun p => fst p =? k) dy)
     | _, _ =>
         flat_map
           (fun p =>
              map (fun q => {| m_year := k; m_TempF := snd p;
                               m_disaster_count := Some (Z2Qc (snd q)) |})
                  (filter (fun p => fst p =? k) dy))
           (filter (fun p => fst p =? k) ta)
     end) = [{| m_year := k; m_TempF := t; m_disaster_count := c |}] /\
    (forall v, In (k, v) ta -> t = v) /\
    (~ In k (map fst ta) -> t = None) /\
    (forall n, In (k, n) dy -> c = Some (Z2Qc n)) /\
    (~ In k (map fst dy) -> c = None).
Proof.
  intros Hta Hdy Hk.
  destruct (unique_key_rows ta k Hta) as [(Et & Hnt)|(v & Et & Hv)];
    destruct (unique_key_rows dy k Hdy) as [(Ed & Hnd)|(n & Ed & Hn)];
    rewrite Et, Ed; simpl.
  - apply in_app_iff in Hk as [?|?]; contradiction.
  - exists None, (Some (Z2Qc n)). repeat split; try tauto.
    + intros v Hin. exfalso. apply Hnt. apply in_map_iff. now exists (k, v).
    + intros n' Hin. apply Hn in Hin. now subst.
    + intros Hnot. exfalso. apply Hnot. apply in_map_iff. exists (k, n).
      split; [reflexivity | now apply Hn].
  - exists v, None. repeat split; try tauto.
    + intros v' Hin. apply Hv in Hin. now subst.
    + intros Hnot. exfalso. apply Hnot. apply in_map_iff. exists (k, v).
      split; [reflexivity | now apply Hv].
    + intros n Hin. exfalso. apply Hnd. apply in_map_iff. now exists (k, n).
  - exists v, (Some (Z2Qc n)). repeat split.
    + intros v' Hin. apply Hv in Hin. now subst.
    + intros Hnot. exfalso. apply Hnot. apply in_map_iff. exists (k, v).
      split; [reflexivity | now apply Hv].
    + intros n' Hin. apply Hn in Hin. now subst.
    + intros Hnot. exfalso. apply Hnot. apply in_map_iff. exists (k, n).
      split; [reflexivity | now apply Hn].
Qed.

Lemma flat_map_singletons {A B : Type} (f : B -> A) (blk : A -> list B) (ks : list A) :
  (forall k, In k ks -> map f (blk k) = [k]) ->
  map f (flat_map blk ks) = ks.
Proof.
  induction ks as [|k ks IH]; simpl; intros Hb; [reflexivity|].
  rewrite map_app, Hb by auto. simpl. now rewrite IH by auto.
Qed.

Lemma merge_outer_years (ta : list (Z * float64)) (dy : list (Z * Z)) :
  NoDup (map fst ta) -> NoDup (map fst dy) ->
  map m_year (merge_outer ta dy) = unique_sorted (map fst ta ++ map fst dy).
Proof.
  intros Hta Hdy. unfold merge_outer. apply flat_map_singletons.
  intros k Hk. rewrite unique_sorted_In in Hk.
  destruct (merge_block ta dy k Hta Hdy Hk) as (t & c & E & _).
  cbv zeta. rewrite E. reflexivity.
Qed.

Lemma merged_of_unique (ta : list (Z * float64)) (dy : list (Z * Z)) :
  NoDup (map fst ta) -> NoDup (map fst dy) ->
  merged_of ta dy = merge_outer ta dy.
Proof.
  intros Hta Hdy. unfold merged_of. apply sort_values_id.
  rewrite merge_outer_years by assumption. apply unique_sorted_sorted.
Qed.

Lemma merge_outer_row (ta : list (Z * float64)) (dy : list (Z * Z)) (r : merged_row) :
  NoDup (map fst ta) -> NoDup (map fst dy) ->
  In r (merge_outer ta dy) ->
  (forall v, In (m_year r, v) ta -> m_TempF r = v) /\
  (~ In (m_year r) (map fst ta) -> m_TempF r = None) /\
  (forall n, In (m_year r, n) dy -> m_disaster_count r = Some (Z2Qc n)) /\
  (~ In (m_year r) (map fst dy) -> m_disaster_count r = None).
Proof.
  intros Hta Hdy Hin. unfold merge_outer in Hin.
  apply in_flat_map in Hin as (k & Hk & Hr).
  rewrite unique_sorted_In in Hk.
  destruct (merge_block ta dy k Hta Hdy Hk) as (t & c & E & H1 & H2 & H3 & H4).
  cbv zeta in Hr. rewrite E in Hr. destruct Hr as [<-|[]]. simpl. auto.
Qed.
End Merge.

Lemma merge_outer_count_absent (ta : list (Z * float64)) (dy : list (Z * Z))
    (r : merged_row) :
  In r (merge_outer ta dy) ->
  ~ In (m_year r) (map fst dy) ->
  m_disaster_count r = None.
Proof.
  unfold merge_outer. intros Hin Habs.
  apply in_flat_map in Hin as (k & _ & Hr). cbv zeta in Hr.
  destruct (filter (fun p => fst p =? k) dy) as [|q rs] eqn:Ed.
  - assert (Hr' : In r (map (fun p => {| m_year := k; m_TempF := snd p;
                                         m_disaster_count := None |})
                            (filter (fun p => fst p =? k) ta)))
      by (destruct (filter _ ta); exact Hr).
    apply in_map_iff in Hr' as (p & <- & _). reflexivity.
  - exfalso. apply Habs.
    assert (Hq : In q (filter (fun p => fst p =? k) dy)) by (rewrite Ed; now left).
    apply filter_In in Hq as (Hq & Hk). apply Z.eqb_eq in Hk.
    assert (Hy : m_year r = k).
    { destruct (filter _ ta) as [|p ls].
      - apply in_map_iff in Hr as (x & <- & _). reflexivity.
      - apply in_flat_map in Hr as (x & _ & Hx).
        apply in_map_iff in Hx as (x' & <- & _). reflexivity. }
    rewrite Hy, <- Hk. now apply in_map.
Qed.

(** ** The merged table and the annual aggregates *)

(** C1.  Merging two annual aggregates whose years are unique gives a table
    whose years are strictly ascending (so no year occurs twice), that has
    a row for a year exactly when one of the aggregates has, and in which a
    row carries the value of each aggregate that has its year and a missing
    value, which is not a number and so not zero, for an aggregate that
    lacks it.  [build_merged_dataset] returns [merged_of] of the two
    aggregates it loaded. *)
Theorem merged_outer_join_on_year
    (temps_annual : list (Z * float64)) (disasters_per_year : list (Z * Z)) :
  NoDup (map fst temps_annual) ->
  NoDup (map fst disasters_per_year) ->
  let merged := merged_of temps_annual disasters_per_year in
  StronglySorted Z.lt (map m_year merged) /\
  (forall y, In y (map m_year merged) <->
             In y (map fst temps_annual) \/ In y (map fst disasters_per_year)) /\
  (forall r, In r merged ->
     (forall v, In (m_year r, v) temps_annual -> m_TempF r = v) /\
     (~ In (m_year r) (map fst temps_annual) -> m_TempF r = None) /\
     (forall n, In (m_year r, n) disasters_per_year ->
                m_disaster_count r = Some (Z2Qc n)) /\
     (~ In (m_year r) (map fst disasters_per_year) ->
      m_disaster_count r = None)).
Proof.
  intros Hta Hdy merged. subst merged.
  rewrite merged_of_unique by assumption.
  rewrite merge_outer_years by assumption.
  split; [apply unique_sorted_sorted|]. split.
  - intros y. rewrite unique_sorted_In. apply in_app_iff.
  - intros r Hr. now apply merge_outer_row.
Qed.

Lemma merged_outer_join_on_year_witness :
  NoDup (map fst ex_temps_annual) /\
  NoDup (map fst ex_disasters_per_year) /\
  let merged := merged_of ex_temps_annual ex_disasters_per_year in
  StronglySorted Z.lt (map m_year merged) /\
  (forall y, In y (map m_year merged) <->
             In y (map fst ex_temps_annual) \/
             In y (map fst ex_disasters_per_year)) /\
  (forall r, In r merged ->
     (forall v, In (m_year r, v) ex_temps_annual -> m_TempF r = v) /\
     (~ In (m_year r) (map fst ex_temps_annual) -> m_TempF r = None) /\
     (forall n, In (m_year r, n) ex_disasters_per_year ->
                m_disaster_count r = Some (Z2Qc n)) /\
     (~ In (m_year r) (map fst ex_disasters_per_year) ->
      m_disaster_count r = None)).
Proof.
  assert (H1 : NoDup (map fst ex_temps_annual))
    by (simpl; constructor; [simpl; tauto | constructor]).
  assert (H2 : NoDup (map fst ex_disasters_per_year))
    by (simpl; constructor; [simpl; tauto | constructor]).
  split; [exact H1|]. split; [exact H2|].
  exact (merged_outer_join_on_year ex_temps_annual ex_disasters_per_year H1 H2).
Defined.

(** The scenario of the merge: [{2020: 59.0}] merged with [{2021: 3}]. *)
Example merged_scenario :
  merged_of ex_temps_annual ex_disasters_per_year =
  [ {| m_year := 2020; m_TempF := Some (Z2Qc 59); m_disaster_count := None |};
    {| m_year := 2021; m_TempF := None; m_disaster_count := Some (Z2Qc 3) |} ].
Proof. reflexivity. Qed.

Lemma build_merged_dataset_merged `{RT : PandasRuntime}
    (gia : list gia_row) (berk : list berk_row) (josep : list josep_row)
    (bar : list bar_row) (shrey : list shrey_row)
    (ta : list (Z * float64)) (dy : list (Z * Z)) (m : list merged_row) :
  build_merged_dataset gia berk josep bar shrey = Ok (ta, dy, m) ->
  (exists tall, load_temperature_data gia berk josep = Ok (tall, ta)) /\
  (exists dall, load_disaster_data bar shrey = Ok (dall, dy)) /\
  m = merged_of ta dy.
Proof.
  unfold build_merged_dataset. intros E.
  inv_bind E. inv_bind E. injection E as <- <- <-.
  destruct a as (tall, ta), a0 as (dall, dy). simpl. eauto.
Qed.

(** C6.  The disaster loader returns, and its annual aggregate holds the
    row [(y, n)] exactly when [n] is the number of cleaned events of year
    [y] and [n >= 1]: a year without events has no row, in particular
    no row [(y, 0)]. *)
Theorem disasters_per_year_counts `{RT : PandasRuntime}
    (bar : list bar_row) (shrey : list shrey_row) :
  exists disasters_all disasters_per_year,
    load_disaster_data bar shrey = Ok (disasters_all, disasters_per_year) /\
    forall y n, In (y, n) disasters_per_year <->
                n = events_in_year disasters_all y /\ 1 <= n.
Proof.
  destruct (load_disaster_data_Ok bar shrey) as (da & E & _).
  exists da, (groupby_year_size da). split; [exact E|].
  intros y n. apply groupby_year_size_In.
Qed.

(** The scenario of the aggregate: three events in 2021 and none in 2022
    (the only row dated 2022 has no disaster type and is dropped). *)
Example disasters_per_year_scenario :
  option_map snd
    (match load_disaster_data (RT := ref_runtime) ex_bar ex_shrey with
     | Ok x => Some x | Raise _ => None end) = Some [ (2021, 3) ].
Proof. reflexivity. Qed.

(** C8.  The years of the annual temperature aggregate of a run that
    returns, and the years of the annual disaster aggregate (whose loader
    always returns), are pairwise distinct and strictly ascending in row
    order. *)
Theorem annual_years_unique_ascending `{RT : PandasRuntime}
    (gia : list gia_row) (berk : list berk_row) (josep : list josep_row)
    (bar : list bar_row) (shrey : list shrey_row) :
  (forall temps_all temps_annual,
     load_temperature_data gia berk josep = Ok (temps_all, temps_annual) ->
     NoDup (map fst temps_annual) /\
     StronglySorted Z.lt (map fst temps_annual)) /\
  (exists disasters_all disasters_per_year,
     load_disaster_data bar shrey = Ok (disasters_all, disasters_per_year) /\
     NoDup (map fst disasters_per_year) /\
     StronglySorted Z.lt (map fst disasters_per_year)).
Proof.
  split.
  - intros ta annual E.
    apply load_temperature_data_inv in E as (tb & _ & _ & E).
    rewrite (groupby_year_mean_keys _ _ E).
    split; [apply StronglySorted_lt_NoDup|]; apply unique_sorted_sorted.
  - destruct (load_disaster_data_Ok bar shrey) as (da & E & _).
    exists da, (groupby_year_size da). split; [exact E|].
    rewrite groupby_year_size_keys.
    split; [apply StronglySorted_lt_NoDup|]; apply unique_sorted_sorted.
Qed.

Lemma annual_years_unique_ascending_witness :
  exists temps_all temps_annual,
    load_temperature_data (RT := ref_runtime) ex_gia ex_berk ex_josep
      = Ok (temps_all, temps_annual) /\
    map fst temps_annual = [2019; 2020; 2021] /\
    NoDup (map fst temps_annual) /\
    StronglySorted Z.lt (map fst temps_annual).
Proof.
  eexists. eexists. split; [vm_compute; reflexivity|].
  split; [reflexivity|].
  eapply (proj1 (annual_years_unique_ascending (RT := ref_runtime)
                   ex_gia ex_berk ex_josep ex_bar ex_shrey)).
  vm_compute. reflexivity.
Defined.

(** C10.  The disaster loader returns, every count of its annual aggregate
    is at least 1, a year has a row exactly when it has at least one
    cleaned event, and a year absent from the aggregate shows in any merged
    table as a missing count. *)
Theorem disaster_count_positive `{RT : PandasRuntime}
    (bar : list bar_row) (shrey : list shrey_row) :
  exists disasters_all disasters_per_year,
    load_disaster_data bar shrey = Ok (disasters_all, disasters_per_year) /\
    Forall (fun p => 1 <= snd p) disasters_per_year /\
    (forall y, In y (map fst disasters_per_year) <->
               1 <= events_in_year disasters_all y) /\
    (forall temps_annual r,
       In r (merged_of temps_annual disasters_per_year) ->
       ~ In (m_year r) (map fst disasters_per_year) ->
       m_disaster_count r = None).
Proof.
  destruct (load_disaster_data_Ok bar shrey) as (da & E & _).
  exists da, (groupby_year_size da). split; [exact E|]. split; [|split].
  - apply Forall_forall. intros (y, n) Hin.
    apply groupby_year_size_In in Hin. simpl. tauto.
  - intros y. rewrite in_map_iff. split.
    + intros ((y', n) & <- & Hin). apply groupby_year_size_In in Hin.
      simpl. destruct Hin as (-> & Hn). exact Hn.
    + intros Hn. exists (y, events_in_year da y). split; [reflexivity|].
      apply groupby_year_size_In. auto.
  - intros ta r Hin Habs. unfold merged_of, sort_values in Hin.
    apply sort_by_In in Hin. now apply merge_outer_count_absent with (ta := ta) (dy := groupby_year_size da).
Qed.

(** ** Value counts *)

Lemma Qc_eqb_eq (x y : Qc) : Qc_eqb x y = true <-> x = y.
Proof.
  unfold Qc_eqb. rewrite Qeq_bool_iff. split.
  - apply Qc_is_canon.
  - intros ->. reflexivity.
Qed.

Lemma pyval_eqb_eq (a b : pyval) : pyval_eqb a b = true <-> a = b.
Proof.
  destruct a as [|x|s], b as [|y|t]; simpl;
    try (split; [discriminate | congruence]); try tauto.
  - rewrite Qc_eqb_eq. split; congruence.
  - rewrite String.eqb_eq. split; congruence.
Qed.

Lemma pyval_eqb_refl (a : pyval) : pyval_eqb a a = true.
Proof. now apply pyval_eqb_eq. Qed.

Lemma occurrences_count_occ (v : pyval) (l : list pyval) :
  occurrences v l = Z.of_nat (count_occ pyval_eq_dec l v).
Proof.
  unfold occurrences. f_equal.
  induction l as [|a l IH]; simpl; [reflexivity|].
  destruct (pyval_eq_dec a v) as [->|Hne].
  - rewrite pyval_eqb_refl. simpl. now rewrite IH.
  - destruct (pyval_eqb v a) eqn:E; [|assumption].
    apply pyval_eqb_eq in E. congruence.
Qed.

Lemma occurrences_pos (v : pyval) (l : list pyval) :
  1 <= occurrences v l <-> In v l.
Proof.
  rewrite occurrences_count_occ, (count_occ_In pyval_eq_dec). lia.
Qed.

Lemma distinct_In (l : list pyval) (x : pyval) : In x (distinct l) <-> In x l.
Proof.
  induction l as [|a l IH]; simpl; [tauto|].
  rewrite filter_In, IH. split.
  - intros [?|[? _]]; auto.
  - intros [?|Hin]; [auto|].
    destruct (pyval_eq_dec a x) as [?|Hne]; [auto|]. right. split; [assumption|].
    destruct (pyval_eqb a x) eqn:E; [|reflexivity].
    apply pyval_eqb_eq in E. contradiction.
Qed.

Lemma NoDup_filter {A : Type} (f : A -> bool) (l : list A) :
  NoDup l -> NoDup (filter f l).
Proof.
  induction 1 as [|a l Hn Hnd IH]; simpl; [constructor|].
  destruct (f a); [|assumption].
  constructor; [|assumption]. rewrite filter_In. tauto.
Qed.

Lemma distinct_NoDup (l : list pyval) : NoDup (distinct l).
Proof.
  induction l as [|a l IH]; simpl; constructor.
  - rewrite filter_In, pyval_eqb_refl. simpl. intros [_ ?]. discriminate.
  - now apply NoDup_filter.
Qed.

Lemma Z_sum_perm (l l' : list Z) : Permutation l l' -> Z_sum l = Z_sum l'.
Proof.
  induction 1; simpl; lia.
Qed.

(** Over keys without repetition that cover the column, the occurrences
    add up to the length of the column. *)
Lemma occurrences_total (ks l : list pyval) :
  NoDup ks -> (forall x, In x l -> In x ks) ->
  Z_sum (map (fun v => occurrences v l) ks) = Z.of_nat (length l).
Proof.
  intros Hnd. induction l as [|a l IH]; intros Hcov.
  - induction ks as [|k ks IHk]; simpl; [reflexivity|].
    apply NoDup_cons_iff in Hnd as (_ & Hnd).
    rewrite IHk by (auto || (intros ? [])). reflexivity.
  - assert (Hone : forall ks', NoDup ks' ->
              Z_sum (map (fun v => occurrences v (a :: l)) ks') =
              (if in_dec pyval_eq_dec a ks' then 1 else 0) +
              Z_sum (map (fun v => occurrences v l) ks')).
    { clear. induction 1 as [|k ks' Hn Hnd' IHk]; simpl; [reflexivity|].
      rewrite IHk. unfold occurrences at 1 3. simpl.
      destruct (pyval_eq_dec k a) as [->|Hne].
      - rewrite pyval_eqb_refl. simpl length.
        destruct (in_dec pyval_eq_dec a ks'); [contradiction|]. lia.
      - destruct (pyval_eqb k a) eqn:E; [apply pyval_eqb_eq in E; contradiction|].
        destruct (in_dec pyval_eq_dec a ks'); lia. }
    rewrite Hone by assumption.
    rewrite IH by (intros x Hx; apply Hcov; now right).
    destruct (in_dec pyval_eq_dec a ks) as [_|Hn].
    + simpl length. lia.
    + exfalso. apply Hn, Hcov. now left.
Qed.

Section ValueCounts.
Variable col : list pyval.
Hypothesis col_notna : Forall (fun v => notna v = true) col.

Lemma filter_notna_id : filter notna col = col.
Proof.
  induction col_notna as [|v l Hv Hl IH]; simpl; [reflexivity|].
  now rewrite Hv, IH.
Qed.

Lemma value_counts_perm :
  Permutation (value_counts col)
              (map (fun v => (v, occurrences v col)) (distinct col)).
Proof.
  unfold value_counts. rewrite filter_notna_id. apply sort_by_perm.
Qed.

Lemma value_counts_keys_NoDup : NoDup (map fst (value_counts col)).
Proof.
  eapply Permutation_NoDup.
  - symmetry. apply Permutation_map, value_counts_perm.
  - rewrite map_map. simpl. rewrite map_id. apply distinct_NoDup.
Qed.

Lemma value_counts_In (t : pyval) (n : Z) :
  In (t, n) (value_counts col) <->
  n = Z.of_nat (count_occ pyval_eq_dec col t) /\ 1 <= n.
Proof.
  rewrite <- occurrences_count_occ. split.
  - intros Hin. apply (Permutation_in _ value_counts_perm) in Hin.
    apply in_map_iff in Hin as (v & E & Hv). injection E as -> <-.
    split; [reflexivity|]. apply occurrences_pos. now apply distinct_In.
  - intros (-> & Hn).
    apply (Permutation_in _ (Permutation_sym value_counts_perm)).
    apply in_map_iff. exists t. split; [reflexivity|].
    apply distinct_In. now apply occurrences_pos.
Qed.

Lemma value_counts_descending :
  StronglySorted (fun p q : pyval * Z => snd q <= snd p) (value_counts col).
Proof.
  apply Sorted_StronglySorted; [intros p q r; lia|].
  unfold value_counts.
  eapply Sorted_impl.
  2: { apply sort_by_sorted. intros a b.
       destruct (Z.leb_spec (snd b) (snd a)); [now left | right].
       apply Z.leb_le. lia. }
  intros p q. simpl. apply Z.leb_le.
Qed.

Lemma value_counts_total :
  Z_sum (map snd (value_counts col)) = Z.of_nat (length col).
Proof.
  rewrite (Z_sum_perm _ _ (Permutation_map snd value_counts_perm)).
  rewrite map_map. simpl.
  apply occurrences_total; [apply distinct_NoDup|].
  intros x. apply distinct_In.
Qed.
End ValueCounts.

Lemma disasters_all_types_notna `{RT : PandasRuntime}
    (bar : list bar_row) (shrey : list shrey_row) (da : list disaster_row) :
  Forall2 (fun r e => disaster_year_astype_int r = Ok e)
          (dropna_disasters (dis_bar_std bar ++ dis_shrey_std shrey)) da ->
  Forall (fun v => notna v = true) (map d_disaster_type da).
Proof.
  intros HF. apply Forall_forall. intros v Hv.
  apply in_map_iff in Hv as (e & <- & He).
  destruct (Forall2_In_r _ _ _ _ HF He) as (r & Hr & Er).
  destruct (disaster_cast_of_kept _ _ _ Hr) as (ts & _ & Er' & Hn).
  rewrite Er in Er'. injection Er' as ->. exact Hn.
Qed.

(** C7.  The disaster loader returns, and on its cleaned events table
    [disaster_type_counts] lists every disaster type once, with the exact
    number of events of that type (at least 1), by descending count, so
    that the counts add up to the number of cleaned events.  On the types
    Flood, Flood, Storm it gives Flood: 2 before Storm: 1. *)
Theorem disaster_type_frequency `{RT : PandasRuntime}
    (bar : list bar_row) (shrey : list shrey_row) :
  (exists disasters_all disasters_per_year,
     load_disaster_data bar shrey = Ok (disasters_all, disasters_per_year) /\
     let freq := disaster_type_counts disasters_all in
     NoDup (map fst freq) /\
     (forall t n,
        In (t, n) freq <->
        n = Z.of_nat (count_occ pyval_eq_dec
                        (map d_disaster_type disasters_all) t) /\ 1 <= n) /\
     StronglySorted (fun p q => snd q <= snd p) freq /\
     Z_sum (map snd freq) = Z.of_nat (length disasters_all)) /\
  disaster_type_counts
    (map (fun t => {| d_event_date := None; d_year := 2021;
                      d_disaster_type := Str t; d_source := Baris_Dincer |})
         ["Flood"; "Flood"; "Storm"]%string)
  = [ (Str "Flood", 2); (Str "Storm", 1) ].
Proof.
  split; [|reflexivity].
  destruct (load_disaster_data_Ok bar shrey) as (da & E & HF).
  exists da, (groupby_year_size da). split; [exact E|].
  pose proof (disasters_all_types_notna _ _ _ HF) as Hn.
  unfold disaster_type_counts. cbv zeta.
  split; [now apply value_counts_keys_NoDup|].
  split; [intros t n; now apply value_counts_In|].
  split; [now apply value_counts_descending|].
  rewrite value_counts_total by assumption. now rewrite length_map.
Qed.

(** ** The reductions, in terms of the entries that are not missing *)

Lemma Qc_leb_le (x y : Qc) : Qc_leb x y = true <-> (x <= y)%Qc.
Proof. unfold Qc_leb, Qcle. apply Qle_bool_iff. Qed.

Lemma Qc_leb_total (x y : Qc) : Qc_leb x y = true \/ Qc_leb y x = true.
Proof.
  rewrite !Qc_leb_le. destruct (Qclt_le_dec x y) as [Hlt|Hle]; [left | now right].
  now apply Qclt_le_weak.
Qed.

Lemma Qc_leb_false (x y : Qc) : Qc_leb x y = false -> (y <= x)%Qc.
Proof.
  intros E. destruct (Qc_leb_total x y) as [H|H]; [congruence|].
  now apply Qc_leb_le.
Qed.

Lemma count_dropna (col : list float64) :
  count col = Z.of_nat (length (dropna_values col)).
Proof.
  induction col as [|[q|] col IH]; simpl; [reflexivity| |assumption].
  unfold count in *. simpl. rewrite IH. lia.
Qed.

Lemma nansum_dropna (col : list float64) :
  nansum col = Qc_sum (dropna_values col).
Proof.
  unfold nansum.
  induction col as [|[q|] col IH]; simpl; [reflexivity| |].
  - now rewrite IH.
  - rewrite IH. apply Qcplus_0_l.
Qed.

Lemma squares_dropna (avg : Qc) (col : list float64) :
  Qc_sum (map (fun x => match x with
                        | Some q => ((avg - q) * (avg - q))%Qc
                        | None => 0%Qc
                        end) col)
  = Qc_sum (map (fun q => ((q - avg) * (q - avg))%Qc) (dropna_values col)).
Proof.
  induction col as [|[q|] col IH]; simpl; [reflexivity| |].
  - rewrite IH. ring.
  - rewrite IH. apply Qcplus_0_l.
Qed.

Lemma nanmin_spec (col : list float64) :
  match nanmin col with
  | None => dropna_values col = []
  | Some m => In m (dropna_values col) /\ Forall (Qcle m) (dropna_values col)
  end.
Proof.
  induction col as [|[q|] col IH]; [reflexivity| |exact IH].
  change (nanmin (Some q :: col))
    with (match nanmin col with
          | Some a => Some (if Qc_leb q a then q else a)
          | None => Some q
          end).
  simpl dropna_values.
  destruct (nanmin col) as [a|].
  - destruct IH as (Hin & Hall). destruct (Qc_leb q a) eqn:E.
    + apply Qc_leb_le in E. split; [now left|].
      constructor; [apply Qcle_refl|].
      eapply Forall_impl; [|exact Hall]. intros x Hx. now apply Qcle_trans with a.
    + apply Qc_leb_false in E. split; [now right | now constructor].
  - rewrite IH. split; [now left|]. repeat constructor. apply Qcle_refl.
Qed.

Lemma nanmax_spec (col : list float64) :
  match nanmax col with
  | None => dropna_values col = []
  | Some m => In m (dropna_values col) /\
              Forall (fun x => Qcle x m) (dropna_values col)
  end.
Proof.
  induction col as [|[q|] col IH]; [reflexivity| |exact IH].
  change (nanmax (Some q :: col))
    with (match nanmax col with
          | Some a => Some (if Qc_leb a q then q else a)
          | None => Some q
          end).
  simpl dropna_values.
  destruct (nanmax col) as [a|].
  - destruct IH as (Hin & Hall). destruct (Qc_leb a q) eqn:E.
    + apply Qc_leb_le in E. split; [now left|].
      constructor; [apply Qcle_refl|].
      eapply Forall_impl; [|exact Hall]. intros x Hx. now apply Qcle_trans with a.
    + apply Qc_leb_false in E. split; [now right | now constructor].
  - rewrite IH. split; [now left|]. repeat constructor. apply Qcle_refl.
Qed.

Lemma nanmedian_spec (col : list float64) :
  match nanmedian col with
  | None => dropna_values col = []
  | Some m => median_of (dropna_values col) m
  end.
Proof.
  unfold nanmedian. cbv zeta.
  assert (Hs : StronglySorted Qcle (sort_by Qc_leb (dropna_values col))).
  { apply Sorted_StronglySorted; [exact Qcle_trans|].
    eapply Sorted_impl; [|apply sort_by_sorted, Qc_leb_total].
    intros a b. apply Qc_leb_le. }
  pose proof (sort_by_perm Qc_leb (dropna_values col)) as Hp.
  destruct (length (sort_by Qc_leb (dropna_values col))) as [|n] eqn:El.
  - apply length_zero_iff_nil in El. rewrite El in Hp.
    now apply Permutation_nil in Hp.
  - rewrite <- El.
    destruct (Nat.odd _) eqn:Eo;
      (exists (sort_by Qc_leb (dropna_values col));
       split; [assumption | split; [assumption | now rewrite Eo]]).
Qed.

(** C3.  The seven statistics of [compute_disaster_summary] are those of
    the [disaster_count] entries that are not missing: [Count] is their
    number [n], [Sum] their sum, [Mean] the sum divided by [n] (NaN when
    there is none), [StdDev] the square root of the sum of the squared
    deviations from the mean divided by [n - 1] (NaN when [n <= 1]),
    [Min] and [Max] an entry that bounds all of them from below and from
    above, [Median] the median; and when [n > 0], [Sum / Count] is [Mean]
    (exactly so in the rational idealisation of floats). *)
Theorem disaster_summary_statistics `{RT : PandasRuntime}
    (merged : list merged_row) :
  let xs := dropna_values (map m_disaster_count merged) in
  let n := Z.of_nat (length xs) in
  let mean := (Qc_sum xs / Z2Qc n)%Qc in
  let s := compute_disaster_summary merged in
  Count s = Some (Z2Qc n) /\
  Sum s = Some (Qc_sum xs) /\
  Mean s = (if n =? 0 then None else Some mean) /\
  StdDev s =
    (if n <=? 1 then None
     else Some (sqrt (Qc_sum (map (fun x => ((x - mean) * (x - mean))%Qc) xs)
                      / Z2Qc (n - 1))%Qc)) /\
  match Min s with
  | None => xs = []
  | Some m => In m xs /\ Forall (fun x => (m <= x)%Qc) xs
  end /\
  match Max s with
  | None => xs = []
  | Some m => In m xs /\ Forall (fun x => (x <= m)%Qc) xs
  end /\
  match Median s with
  | None => xs = []
  | Some m => median_of xs m
  end /\
  (0 < n ->
   exists c sm mn,
     Count s = Some c /\ Sum s = Some sm /\ Mean s = Some mn /\
     (sm / c)%Qc = mn).
Proof.
  intros xs n mean s. subst s. unfold compute_disaster_summary. simpl.
  set (dc := map m_disaster_count merged) in *.
  assert (Ec : count dc = n) by apply count_dropna.
  assert (Es : nansum dc = Qc_sum xs) by apply nansum_dropna.
  split; [now rewrite Ec|]. split; [now rewrite Es|].
  split; [unfold nanmean; now rewrite Ec, Es|].
  split.
  { unfold nanstd, nanvar. rewrite Ec, Es.
    destruct (n <=? 1); [reflexivity|]. simpl.
    now rewrite squares_dropna. }
  split; [apply nanmin_spec|]. split; [apply nanmax_spec|].
  split; [apply nanmedian_spec|].
  intros Hn. exists (Z2Qc n), (Qc_sum xs), mean.
  rewrite Ec, Es. unfold nanmean. rewrite Ec, Es.
  destruct (Z.eqb_spec n 0); [lia|]. auto.
Qed.

(** ** An entirely missing column *)

Lemma all_missing_dropna (merged : list merged_row) :
  Forall (fun r => m_disaster_count r = None) merged ->
  dropna_values (map m_disaster_count merged) = [].
Proof.
  induction 1 as [|r l Hr Hl IH]; simpl; [reflexivity|].
  now rewrite Hr.
Qed.

(** C2, as the code has it.  When every [disaster_count] is missing (also
    when the table has no row), [compute_disaster_summary], a total
    function, gives [Count = 0], [Sum = 0] and NaN for [Mean], [StdDev],
    [Min], [Median] and [Max]. *)
Theorem summary_of_all_missing `{RT : PandasRuntime} (merged : list merged_row) :
  Forall (fun r => m_disaster_count r = None) merged ->
  compute_disaster_summary merged =
  {| Count := Some (Z2Qc 0); Mean := None; StdDev := None; Min := None;
     Median := None; Max := None; Sum := Some (Z2Qc 0) |}.
Proof.
  intros Hall. apply all_missing_dropna in Hall.
  unfold compute_disaster_summary.
  set (dc := map m_disaster_count merged) in *.
  assert (Ec : count dc = 0) by (rewrite count_dropna, Hall; reflexivity).
  assert (Es : nansum dc = Z2Qc 0) by (rewrite nansum_dropna, Hall; reflexivity).
  assert (Emin : nanmin dc = None).
  { pose proof (nanmin_spec dc) as Hm. rewrite Hall in Hm.
    destruct (nanmin dc); [destruct Hm as [[] _] | reflexivity]. }
  assert (Emax : nanmax dc = None).
  { pose proof (nanmax_spec dc) as Hm. rewrite Hall in Hm.
    destruct (nanmax dc); [destruct Hm as [[] _] | reflexivity]. }
  assert (Emed : nanmedian dc = None)
    by (unfold nanmedian; rewrite Hall; reflexivity).
  unfold nanstd, nanvar, nanmean.
  rewrite Ec, Es, Emin, Emax, Emed. reflexivity.
Qed.

Lemma summary_of_all_missing_witness :
  Forall (fun r => m_disaster_count r = None) ex_merged_all_missing /\
  compute_disaster_summary (RT := ref_runtime) ex_merged_all_missing =
  {| Count := Some (Z2Qc 0); Mean := None; StdDev := None; Min := None;
     Median := None; Max := None; Sum := Some (Z2Qc 0) |}.
Proof.
  assert (H : Forall (fun r => m_disaster_count r = None) ex_merged_all_missing)
    by (repeat constructor).
  split; [exact H|].
  exact (summary_of_all_missing (RT := ref_runtime) ex_merged_all_missing H).
Defined.

(** C2, as the claim has it, fails: on an entirely missing column the sum
    is the number 0, not NaN. *)
Lemma all_missing_sum_is_not_nan :
  Forall (fun r => m_disaster_count r = None) ex_merged_all_missing /\
  ~ (let s := compute_disaster_summary (RT := ref_runtime) ex_merged_all_missing in
     Count s = Some (Z2Qc 0) /\ Mean s = None /\ StdDev s = None /\
     Min s = None /\ Median s = None /\ Max s = None /\ Sum s = None).
Proof.
  split; [repeat constructor|].
  cbv zeta. intros (_ & _ & _ & _ & _ & _ & Hsum). discriminate Hsum.
Qed.

(** ** The Berkeley rows of the cleaned temperature table *)

Section BerkeleyRows.
Context `{RT : PandasRuntime}.
Variable date : pyval -> option Timestamp.
Variable y : Z.

Lemma berk_rows_of_year (berk : list berk_row) (tb : list temp_raw)
    (tab : list temp_row) :
  mapM (fun r =>
          f <- celsius_to_fahrenheit (berk_LandAndOceanAverageTemperature r) ;;
          Ok {| raw_year := dt_year (date (berk_dt r));
                raw_TempF := f;
                raw_source := Berkeley_Earth |}) berk = Ok tb ->
  Forall2 (fun r e => temp_year_astype_int r = Ok e) (dropna_temps tb) tab ->
  Forall2 (fun r e =>
             celsius_to_fahrenheit (berk_LandAndOceanAverageTemperature r)
               = Ok (t_TempF e) /\
             t_year e = y /\ t_source e = Berkeley_Earth)
          (filter (berk_reading_in date y) berk)
          (filter (fun e => t_year e =? y) tab).
Proof.
  revert tb tab. induction berk as [|r berk IH]; simpl; intros tb tab E HF.
  - injection E as <-. inversion HF. constructor.
  - inv_bind E. rename a into row. inv_bind E. rename a into tb'.
    injection E as <-. inv_bind Ha. rename a into f. injection Ha as <-.
    unfold dropna_temps in HF. simpl in HF. fold (dropna_temps tb') in HF.
    unfold berk_reading_in at 1.
    destruct (berk_LandAndOceanAverageTemperature r) as [|q|s] eqn:Et;
      simpl in Ha1; [injection Ha1 as <- | injection Ha1 as <- | discriminate].
    + rewrite andb_false_r in HF. rewrite andb_false_r.
      now apply IH with tb'.
    + destruct (date (berk_dt r)) as [ts|]; simpl in HF |- *;
        [|now apply IH with tb'].
      inversion HF as [|r0 e l tab' He HF' E1 E2]. subst.
      unfold temp_year_astype_int in He. simpl in He.
      rewrite Qc_trunc_Z2Qc, ts_year_int64 in He. injection He as <-. simpl.
      destruct (ts_year ts =? y) eqn:Ey; [|now apply IH with tb'].
      constructor; [|now apply IH with tb'].
      simpl. rewrite Et. simpl. apply Z.eqb_eq in Ey. auto.
Qed.
End BerkeleyRows.

Lemma cast_keeps_source `{RT : PandasRuntime} (src : temp_source)
    (l : list temp_raw) (l' : list temp_row) (e : temp_row) :
  Forall2 (fun r e => temp_year_astype_int r = Ok e) l l' ->
  (forall r, In r l -> raw_source r = src) ->
  In e l' -> t_source e = src.
Proof.
  intros HF Hs He.
  destruct (Forall2_In_r _ _ _ _ HF He) as (r & Hr & Er).
  unfold temp_year_astype_int in Er. inv_bind Er. injection Er as <-.
  simpl. auto.
Qed.

Lemma filter_nil {A : Type} (f : A -> bool) (l : list A) :
  (forall a, In a l -> f a = false) -> filter f l = [].
Proof.
  induction l as [|a l IH]; simpl; intros Hf; [reflexivity|].
  rewrite (Hf a) by auto. auto.
Qed.

Lemma Z2Qc_fahrenheit_50 :
  (Z2Qc 10 * Z2Qc 9 / Z2Qc 5 + Z2Qc 32)%Qc = Z2Qc 50.
Proof. apply Qc_is_canon. reflexivity. Qed.

Lemma Z2Qc_fahrenheit_68 :
  (Z2Qc 20 * Z2Qc 9 / Z2Qc 5 + Z2Qc 32)%Qc = Z2Qc 68.
Proof. apply Qc_is_canon. reflexivity. Qed.

Lemma Z2Qc_mean_59 :
  ((Z2Qc 50 + (Z2Qc 68 + 0)) / Z2Qc 2)%Qc = Z2Qc 59.
Proof. apply Qc_is_canon. reflexivity. Qed.

Lemma Z2Qc_mean_59' :
  ((Z2Qc 68 + (Z2Qc 50 + 0)) / Z2Qc 2)%Qc = Z2Qc 59.
Proof. apply Qc_is_canon. reflexivity. Qed.

(** The cleaned rows of year [y] that come from Berkeley readings [rs]. *)
Lemma fahrenheit_rows (y : Z) (rs : list berk_row) (es : list temp_row) :
  Forall2 (fun r e =>
             celsius_to_fahrenheit (berk_LandAndOceanAverageTemperature r)
               = Ok (t_TempF e) /\
             t_year e = y /\ t_source e = Berkeley_Earth) rs es ->
  Forall2 (fun r e =>
             celsius_to_fahrenheit (berk_LandAndOceanAverageTemperature r)
               = Ok (t_TempF e)) rs es /\
  Forall (fun e => t_year e = y /\ t_source e = Berkeley_Earth) es.
Proof.
  induction 1 as [|r e rs es (T & Y & S) HF (IH1 & IH2)]; split; constructor; auto.
Qed.

(** C4.  In a run of the temperature loader that returns, if the readings
    of year 2020 in the Berkeley file are, in either order, one of 10.0
    dated "2020-03-01" and one of 20.0 dated "2020-07-01", and every row of
    year 2020 in the cleaned table comes from Berkeley, then the rows of
    year 2020 carry 50.0 and 68.0 and the annual aggregate has 59.0 for
    2020. *)
Theorem celsius_readings_annual_mean `{RT : PandasRuntime}
    (gia : list gia_row) (berk : list berk_row) (josep : list josep_row)
    (temps_all : list temp_row) (temps_annual : list (Z * float64)) :
  load_temperature_data gia berk josep = Ok (temps_all, temps_annual) ->
  Permutation
    (filter (berk_reading_in (to_datetime (map berk_dt berk)) 2020) berk)
    [ {| berk_dt := Str "2020-03-01";
         berk_LandAndOceanAverageTemperature := Flt (Z2Qc 10) |};
      {| berk_dt := Str "2020-07-01";
         berk_LandAndOceanAverageTemperature := Flt (Z2Qc 20) |} ] ->
  (forall r, In r temps_all -> t_year r = 2020 -> t_source r = Berkeley_Earth) ->
  Permutation
    (filter (fun r => t_year r =? 2020) temps_all)
    [ {| t_year := 2020; t_TempF := Flt (Z2Qc 50); t_source := Berkeley_Earth |};
      {| t_year := 2020; t_TempF := Flt (Z2Qc 68); t_source := Berkeley_Earth |} ] /\
  In (2020, Some (Z2Qc 59)) temps_annual.
Proof.
  intros E Hberk Hother.
  apply load_temperature_data_inv in E as (tb & Etb & HF & Eann).
  unfold dropna_temps in HF. rewrite !filter_app in HF.
  apply Forall2_app_inv_l in HF as (tag & rest & HFg & HF & ->).
  apply Forall2_app_inv_l in HF as (tab & taj & HFb & HFj & ->).
  assert (Hg : filter (fun r => t_year r =? 2020) tag = []).
  { apply filter_nil. intros e He.
    destruct (Z.eqb_spec (t_year e) 2020) as [Ey|]; [|reflexivity].
    assert (Hs : t_source e = Gia_Bach_Nguyen).
    { eapply cast_keeps_source; [exact HFg| |exact He].
      intros r Hr. apply filter_In in Hr as (Hr & _).
      unfold temps_gia in Hr. apply in_map_iff in Hr as (x & <- & _). reflexivity. }
    rewrite (Hother e) in Hs by (rewrite ?in_app_iff; auto). discriminate. }
  assert (Hj : filter (fun r => t_year r =? 2020) taj = []).
  { apply filter_nil. intros e He.
    destruct (Z.eqb_spec (t_year e) 2020) as [Ey|]; [|reflexivity].
    assert (Hs : t_source e = Josep_Ferrer).
    { eapply cast_keeps_source; [exact HFj| |exact He].
      intros r Hr. apply filter_In in Hr as (Hr & _).
      unfold temps_josep in Hr. apply in_map_iff in Hr as (x & <- & _). reflexivity. }
    rewrite (Hother e) in Hs by (rewrite ?in_app_iff; auto). discriminate. }
  assert (Hall : filter (fun r => t_year r =? 2020) (tag ++ tab ++ taj) =
                 filter (fun r => t_year r =? 2020) tab)
    by (rewrite !filter_app, Hg, Hj, app_nil_r; reflexivity).
  rewrite (groupby_year_mean_In _ _ 2020 (Some (Z2Qc 59)) Eann).
  rewrite group_nonempty, Hall.
  pose proof (berk_rows_of_year (to_datetime (map berk_dt berk)) 2020
                berk tb tab Etb HFb) as HR.
  apply fahrenheit_rows in HR as (HT & HY).
  apply Permutation_sym, Permutation_length_2_inv in Hberk as [Eb|Eb];
    rewrite Eb in HT;
    inversion HT as [|r1 e1 l1 l1' T1 HT1 E1 E1']; subst;
    inversion HT1 as [|r2 e2 l2 l2' T2 HT2 E2 E2']; subst;
    inversion HT2; subst;
    rewrite <- E1' in HY;
    apply Forall_cons_iff in HY as ((Y1 & S1) & HY);
    apply Forall_cons_iff in HY as ((Y2 & S2) & _);
    destruct e1 as [y1 t1 s1], e2 as [y2 t2 s2]; simpl in *;
    injection T1 as <-; injection T2 as <-; subst;
    rewrite Z2Qc_fahrenheit_50, Z2Qc_fahrenheit_68.
  - split; [reflexivity|]. split; [discriminate|].
    unfold group_mean, nanmean, nansum. simpl. now rewrite Z2Qc_mean_59.
  - split; [apply perm_swap|]. split; [discriminate|].
    unfold group_mean, nanmean, nansum. simpl. now rewrite Z2Qc_mean_59'.
Qed.

Lemma celsius_readings_annual_mean_witness :
  exists temps_all temps_annual,
    load_temperature_data (RT := ref_runtime) ex_gia ex_berk ex_josep
      = Ok (temps_all, temps_annual) /\
    Permutation
      (filter (berk_reading_in
                 (to_datetime (PandasRuntime := ref_runtime) (map berk_dt ex_berk))
                 2020) ex_berk)
      [ {| berk_dt := Str "2020-03-01";
           berk_LandAndOceanAverageTemperature := Flt (Z2Qc 10) |};
        {| berk_dt := Str "2020-07-01";
           berk_LandAndOceanAverageTemperature := Flt (Z2Qc 20) |} ] /\
    (forall r, In r temps_all -> t_year r = 2020 ->
               t_source r = Berkeley_Earth) /\
    Permutation
      (filter (fun r => t_year r =? 2020) temps_all)
      [ {| t_year := 2020; t_TempF := Flt (Z2Qc 50);
           t_source := Berkeley_Earth |};
        {| t_year := 2020; t_TempF := Flt (Z2Qc 68);
           t_source := Berkeley_Earth |} ] /\
    In (2020, Some (Z2Qc 59)) temps_annual.
Proof.
  eexists. eexists. split; [vm_compute; reflexivity|].
  split; [apply Permutation_refl|].
  match goal with
  | |- (?P /\ _) => assert (Hother : P)
  end.
  { intros r Hin Hy. simpl in Hin.
    repeat (destruct Hin as [<-|Hin];
            [simpl in Hy |- *; first [reflexivity | discriminate Hy]|]).
    destruct Hin. }
  split; [exact Hother|].
  eapply (celsius_readings_annual_mean (RT := ref_runtime)
            ex_gia ex_berk ex_josep).
  - vm_compute. reflexivity.
  - apply Permutation_refl.
  - exact Hother.
Defined.

(** C5, at an input where the code departs from it: a text in the
    temperature column of the Berkeley file is not coerced to a missing
    value (as [pd.to_numeric] does for the Josep file); the Celsius to
    Fahrenheit conversion raises a [TypeError] and the loader returns
    nothing. *)
Example berkeley_text_temperature_raises :
  load_temperature_data (RT := ref_runtime) ex_gia ex_berk_text ex_josep
  = Raise TypeError.
Proof. reflexivity. Qed.

(** The same for every runtime and every file: one text among the
    Berkeley temperatures makes the loader raise. *)
Lemma berkeley_text_raises `{RT : PandasRuntime}
    (gia : list gia_row) (berk : list berk_row) (josep : list josep_row)
    (r : berk_row) (s : string) :
  In r berk -> berk_LandAndOceanAverageTemperature r = Str s ->
  load_temperature_data gia berk josep = Raise TypeError.
Proof.
  intros Hin Es. unfold load_temperature_data.
  assert (E : temps_berk berk = Raise TypeError).
  { unfold temps_berk. cbv zeta.
    generalize (to_datetime (map berk_dt berk)). intros date.
    induction berk as [|x berk IH]; [destruct Hin|]. simpl.
    destruct (berk_LandAndOceanAverageTemperature x) as [|q|t] eqn:Ex;
      simpl; [| |reflexivity].
    - destruct Hin as [->|Hin]; [congruence|]. now rewrite IH.
    - destruct Hin as [->|Hin]; [congruence|]. now rewrite IH. }
  now rewrite E.
Qed.

(** By contrast a text among the Josep temperatures is coerced and its
    row dropped: the Josep frame never makes a row with a text. *)
Lemma josep_text_coerced `{RT : PandasRuntime} (josep : list josep_row)
    (r : temp_raw) :
  In r (temps_josep josep) -> forall s, raw_TempF r <> Str s.
Proof.
  unfold temps_josep. intros Hin s. apply in_map_iff in Hin as (x & <- & _).
  simpl. unfold to_numeric.
  destruct (josep_TemperatureFahrenheit x) as [|q|t]; try discriminate.
  destruct (numeric_of_text t); discriminate.
Qed.

(** ** Where the years come from *)


Lemma dated_year_cast `{RT : PandasRuntime} (d : option Timestamp) (y : Z) :
  notna (dt_year d) = true -> astype_int (dt_year d) = Ok y ->
  exists ts, d = Some ts /\ y = ts_year ts.
Proof.
  destruct d as [ts|]; simpl; [|discriminate].
  rewrite Qc_trunc_Z2Qc, ts_year_int64. intros _ [= <-]. eauto.
Qed.

Lemma temps_berk_origin `{RT : PandasRuntime} (berk : list berk_row)
    (tb : list temp_raw) (r : temp_raw) :
  temps_berk berk = Ok tb -> In r tb ->
  exists b, In b berk /\
    raw_year r = dt_year (to_datetime (map berk_dt berk) (berk_dt b)) /\
    celsius_to_fahrenheit (berk_LandAndOceanAverageTemperature b)
      = Ok (raw_TempF r) /\
    raw_source r = Berkeley_Earth.
Proof.
  unfold temps_berk. cbv zeta. intros E Hin.
  apply mapM_Ok_Forall2 in E.
  destruct (Forall2_In_r _ _ _ _ E Hin) as (b & Hb & Eb).
  inv_bind Eb. injection Eb as <-. simpl. exists b. rewrite Ha. auto.
Qed.

Lemma temps_all_origin `{RT : PandasRuntime}
    (gia : list gia_row) (berk : list berk_row) (josep : list josep_row)
    (temps_all : list temp_row) (temps_annual : list (Z * float64))
    (e : temp_row) :
  load_temperature_data gia berk josep = Ok (temps_all, temps_annual) ->
  In e temps_all ->
  match t_source e with
  | Gia_Bach_Nguyen =>
      exists g, In g gia /\
        t_TempF e = gia_Average_Fahrenheit_Temperature g /\
        astype_int (gia_Year g) = Ok (t_year e)
  | Berkeley_Earth =>
      exists b c ts, In b berk /\
        berk_LandAndOceanAverageTemperature b = Flt c /\
        t_TempF e = Flt (c * Z2Qc 9 / Z2Qc 5 + Z2Qc 32)%Qc /\
        to_datetime (map berk_dt berk) (berk_dt b) = Some ts /\
        t_year e = ts_year ts
  | Josep_Ferrer =>
      exists j ts, In j josep /\
        t_TempF e = to_numeric (josep_TemperatureFahrenheit j) /\
        to_datetime (map josep_EventDate josep) (josep_EventDate j) = Some ts /\
        t_year e = ts_year ts
  end.
Proof.
  intros E He.
  apply load_temperature_data_inv in E as (tb & Etb & HF & _).
  destruct (Forall2_In_r _ _ _ _ HF He) as (r & Hr & Er).
  unfold dropna_temps in Hr. apply filter_In in Hr as (Hr & Hk).
  apply andb_true_iff in Hk as (Hy & Ht).
  unfold temp_year_astype_int in Er. inv_bind Er. rename a into y.
  injection Er as <-. simpl.
  rewrite !in_app_iff in Hr. destruct Hr as [Hr|[Hr|Hr]].
  - unfold temps_gia in Hr. apply in_map_iff in Hr as (g & <- & Hg).
    simpl in *. eauto.
  - destruct (temps_berk_origin _ _ _ Etb Hr) as (b & Hb & Ey & Ec & ->).
    rewrite Ey in Hy, Ha.
    destruct (dated_year_cast _ _ Hy Ha) as (ts & Ets & ->).
    destruct (berk_LandAndOceanAverageTemperature b) as [|c|s] eqn:Eb;
      simpl in Ec; [injection Ec as Ec | injection Ec as Ec | discriminate].
    + rewrite <- Ec in Ht. discriminate.
    + exists b, c, ts. rewrite <- Ec. auto.
  - unfold temps_josep in Hr. cbv zeta in Hr.
    apply in_map_iff in Hr as (j & <- & Hj). simpl in *.
    destruct (dated_year_cast _ _ Hy Ha) as (ts & Ets & ->).
    exists j, ts. auto.
Qed.





(** * Further properties of the pipeline *)

(** ** The cleaned events table *)

Lemma mapM_app {A B : Type} (f : A -> result B) (l1 l2 : list A)
    (r1 r2 : list B) :
  mapM f l1 = Ok r1 -> mapM f l2 = Ok r2 -> mapM f (l1 ++ l2) = Ok (r1 ++ r2).
Proof.
  revert r1. induction l1 as [|a l1 IH]; simpl; intros r1 E1 E2.
  - injection E1 as <-. exact E2.
  - inv_bind E1. inv_bind E1. injection E1 as <-.
    rewrite Ha. simpl. rewrite (IH _ Ha0 E2). reflexivity.
Qed.

Section CleanedEvents.
Context `{RT : PandasRuntime}.

Lemma cast_kept_events {A : Type} (gd : A -> option Timestamp) (gt : A -> pyval)
    (src : disaster_source) (l : list A) :
  mapM disaster_year_astype_int
       (dropna_disasters
          (map (fun r => {| raw_event_date := gd r;
                            raw_d_year := dt_year (gd r);
                            raw_disaster_type := gt r;
                            raw_d_source := src |}) l))
  = Ok (flat_map (fun r => clean_event (gd r) (gt r) src) l).
Proof.
  unfold dropna_disasters.
  induction l as [|r l IH]; simpl; [reflexivity|].
  unfold clean_event at 1.
  destruct (gd r) as [ts|]; simpl; [|exact IH].
  destruct (notna (gt r)); simpl; [|exact IH].
  unfold disaster_year_astype_int in IH |- *. simpl.
  rewrite Qc_trunc_Z2Qc, ts_year_int64. simpl. rewrite IH. reflexivity.
Qed.

(** The disaster loader in closed form. *)
Lemma load_disaster_data_eq (bar : list bar_row) (shrey : list shrey_row) :
  load_disaster_data bar shrey =
  Ok (cleaned_events bar shrey, groupby_year_size (cleaned_events bar shrey)).
Proof.
  unfold load_disaster_data. cbv zeta.
  assert (E : mapM disaster_year_astype_int
                (dropna_disasters (dis_bar_std bar ++ dis_shrey_std shrey))
              = Ok (cleaned_events bar shrey)).
  { unfold dropna_disasters. rewrite filter_app.
    apply mapM_app; [apply (cast_kept_events
                              (fun r => to_datetime (map bar_EventDate bar)
                                                    (bar_EventDate r)))
                    |apply (cast_kept_events
                              (fun r => to_datetime (map shrey_Date shrey)
                                                    (shrey_Date r)))]. }
  rewrite E. simpl. rewrite sort_values_id; [reflexivity|].
  rewrite groupby_year_size_keys. apply unique_sorted_sorted.
Qed.

Lemma clean_event_In (date : option Timestamp) (ty : pyval)
    (src : disaster_source) (e : disaster_row) :
  In e (clean_event date ty src) ->
  exists ts, date = Some ts /\ notna ty = true /\
    e = {| d_event_date := Some ts; d_year := ts_year ts;
           d_disaster_type := ty; d_source := src |}.
Proof.
  unfold clean_event. destruct date as [ts|]; [|intros []].
  destruct (notna ty) eqn:E; [|intros []].
  intros [<-|[]]. eauto.
Qed.
End CleanedEvents.

Lemma Z_sum_cons (x : Z) (l : list Z) : Z_sum (x :: l) = x + Z_sum l.
Proof. reflexivity. Qed.

(** The sizes of the groups of a frame add up to its length. *)
Lemma group_sizes_total {A : Type} (key : A -> Z) (ks : list Z) (rows : list A) :
  NoDup ks -> (forall r, In r rows -> In (key r) ks) ->
  Z_sum (map (fun k => Z.of_nat (length (filter (fun r => key r =? k) rows))) ks)
  = Z.of_nat (length rows).
Proof.
  intros Hnd. induction rows as [|a rows IH]; intros Hcov.
  - simpl. induction ks as [|k ks IHk]; simpl; [reflexivity|].
    apply NoDup_cons_iff in Hnd as (_ & Hnd). now rewrite IHk.
  - assert (Hone : forall ks', NoDup ks' ->
              Z_sum (map (fun k => Z.of_nat
                                     (length (filter (fun r => key r =? k)
                                                     (a :: rows)))) ks') =
              (if in_dec Z.eq_dec (key a) ks' then 1 else 0) +
              Z_sum (map (fun k => Z.of_nat
                                     (length (filter (fun r => key r =? k) rows)))
                         ks')).
    { clear. induction 1 as [|k ks' Hn Hnd' IHk]; [reflexivity|].
      rewrite !map_cons, !Z_sum_cons, IHk. cbn [filter].
      destruct (in_dec Z.eq_dec (key a) (k :: ks')) as [Hin|Hnin];
        destruct (in_dec Z.eq_dec (key a) ks') as [Hin'|Hnin'];
        destruct (Z.eqb_spec (key a) k) as [E|Hne];
        try (simpl length; lia).
      - exfalso. apply Hn. now rewrite <- E.
      - destruct Hin as [E|Hin]; [congruence | contradiction].
      - exfalso. apply Hnin. now right.
      - exfalso. apply Hnin. now right.
      - exfalso. apply Hnin. left. congruence. }
    rewrite Hone by assumption.
    rewrite IH by (intros r Hr; apply Hcov; now right).
    destruct (in_dec Z.eq_dec (key a) ks) as [_|Hn].
    + simpl length. lia.
    + exfalso. apply Hn, Hcov. now left.
Qed.

Lemma groupby_year_size_total `{RT : PandasRuntime} (da : list disaster_row) :
  Z_sum (map snd (groupby_year_size da)) = Z.of_nat (length da).
Proof.
  unfold groupby_year_size, groupby. rewrite !map_map. simpl.
  apply group_sizes_total.
  - apply StronglySorted_lt_NoDup, unique_sorted_sorted.
  - intros r Hr. apply unique_sorted_In. now apply in_map.
Qed.

(** X1.  In the cleaned events table no event date is NaT: every row has a
    parsed date, its year is the year of that date, and its disaster type
    is not missing. *)
Theorem disasters_all_dated `{RT : PandasRuntime}
    (bar : list bar_row) (shrey : list shrey_row) :
  exists disasters_all disasters_per_year,
    load_disaster_data bar shrey = Ok (disasters_all, disasters_per_year) /\
    Forall (fun e => exists ts,
              d_event_date e = Some ts /\ d_year e = ts_year ts /\
              notna (d_disaster_type e) = true) disasters_all.
Proof.
  eexists. eexists. split; [apply load_disaster_data_eq|].
  apply Forall_forall. intros e He. unfold cleaned_events in He.
  rewrite in_app_iff, !in_flat_map in He.
  destruct He as [(r & _ & He)|(r & _ & He)];
    apply clean_event_In in He as (ts & _ & Hn & ->); exists ts; auto.
Qed.

(** X2.  The counts of the annual disaster aggregate add up to the number
    of cleaned events: every event is counted in exactly one year. *)
Theorem disaster_counts_total `{RT : PandasRuntime}
    (bar : list bar_row) (shrey : list shrey_row) :
  exists disasters_all disasters_per_year,
    load_disaster_data bar shrey = Ok (disasters_all, disasters_per_year) /\
    Z_sum (map snd disasters_per_year) = Z.of_nat (length disasters_all).
Proof.
  eexists. eexists. split; [apply load_disaster_data_eq|].
  apply groupby_year_size_total.
Qed.

Lemma clean_event_kept {A : Type} (gd : A -> option Timestamp) (gt : A -> pyval)
    (src : disaster_source) (l : list A) :
  Forall2 (fun r e => exists ts,
             gd r = Some ts /\
             e = {| d_event_date := Some ts; d_year := ts_year ts;
                    d_disaster_type := gt r; d_source := src |})
          (filter (fun r => match gd r with
                            | Some _ => notna (gt r)
                            | None => false
                            end) l)
          (flat_map (fun r => clean_event (gd r) (gt r) src) l).
Proof.
  induction l as [|r l IH]; simpl; [constructor|].
  unfold clean_event at 1.
  destruct (gd r) as [ts|] eqn:Ed; [|exact IH].
  destruct (notna (gt r)); [|exact IH].
  simpl. constructor; [|exact IH]. exists ts. rewrite Ed. auto.
Qed.

(** X3.  The cleaned events table is made of the kept rows themselves: it
    is the kept rows of the Baris file, in file order, followed by the kept
    rows of the Shreyansh file, in file order, where a row is kept when its
    date parses and its type is not missing.  Each kept row appears once,
    with its parsed date, the year of that date, its own disaster type and
    the label of its file. *)
Theorem disasters_all_sources `{RT : PandasRuntime}
    (bar : list bar_row) (shrey : list shrey_row) :
  exists disasters_all disasters_per_year from_bar from_shrey,
    load_disaster_data bar shrey = Ok (disasters_all, disasters_per_year) /\
    disasters_all = from_bar ++ from_shrey /\
    Forall2 (fun r e => exists ts,
               to_datetime (map bar_EventDate bar) (bar_EventDate r) = Some ts /\
               e = {| d_event_date := Some ts; d_year := ts_year ts;
                      d_disaster_type := bar_Var5 r;
                      d_source := Baris_Dincer |})
            (filter (bar_kept (map bar_EventDate bar)) bar) from_bar /\
    Forall2 (fun r e => exists ts,
               to_datetime (map shrey_Date shrey) (shrey_Date r) = Some ts /\
               e = {| d_event_date := Some ts; d_year := ts_year ts;
                      d_disaster_type := shrey_DisasterType r;
                      d_source := Shreyansh_Dangi |})
            (filter (shrey_kept (map shrey_Date shrey)) shrey) from_shrey.
Proof.
  eexists. eexists. eexists. eexists.
  split; [apply load_disaster_data_eq|].
  split; [reflexivity|]. split.
  - apply (clean_event_kept
             (fun r => to_datetime (map bar_EventDate bar) (bar_EventDate r))
             bar_Var5).
  - apply (clean_event_kept
             (fun r => to_datetime (map shrey_Date shrey) (shrey_Date r))
             shrey_DisasterType).
Qed.

(** ** The cleaned temperature table *)

Section CleanedTemperatures.
Context `{RT : PandasRuntime}.

Lemma cast_keeps_TempF (l : list temp_raw) (ta : list temp_row) (e : temp_row) :
  Forall2 (fun r e => temp_year_astype_int r = Ok e) l ta ->
  In e ta ->
  exists r, In r l /\ t_TempF e = raw_TempF r /\
            astype_int (raw_year r) = Ok (t_year e).
Proof.
  intros HF He. destruct (Forall2_In_r _ _ _ _ HF He) as (r & Hr & Er).
  exists r. split; [assumption|].
  unfold temp_year_astype_int in Er. inv_bind Er. injection Er as <-.
  simpl. auto.
Qed.

Lemma mapM_as_float64_Flt (vs : list pyval) (xs : list float64) :
  mapM as_float64 vs = Ok xs -> Forall (fun v => is_text v = false) vs.
Proof.
  revert xs. induction vs as [|v vs IH]; simpl; intros xs E; [constructor|].
  inv_bind E. inv_bind E. constructor; [|eauto].
  destruct v; simpl in *; [reflexivity | reflexivity | discriminate].
Qed.

(** In a run that returns, every temperature of the cleaned table is a
    number. *)
Lemma temps_all_numeric (gia : list gia_row) (berk : list berk_row)
    (josep : list josep_row) (ta : list temp_row) (annual : list (Z * float64))
    (e : temp_row) :
  load_temperature_data gia berk josep = Ok (ta, annual) ->
  In e ta -> exists q, t_TempF e = Flt q.
Proof.
  intros E He.
  apply load_temperature_data_inv in E as (tb & _ & HF & Eann).
  destruct (cast_keeps_TempF _ _ _ HF He) as (r & Hr & Et & _).
  unfold dropna_temps in Hr. apply filter_In in Hr as (_ & Hk).
  apply andb_true_iff in Hk as (_ & Hn). rewrite <- Et in Hn.
  assert (Hg : In (t_year e, filter (fun r0 => t_year r0 =? t_year e) ta)
                  (groupby t_year ta))
    by (apply groupby_In; split; [now apply in_map | reflexivity]).
  unfold groupby_year_mean in Eann. apply mapM_Ok_Forall2 in Eann.
  destruct (Forall2_In_l _ _ _ _ Eann Hg) as (p & _ & Ep).
  simpl in Ep. inv_bind Ep. unfold group_mean in Ha. inv_bind Ha.
  apply mapM_as_float64_Flt in Ha0. rewrite Forall_forall in Ha0.
  assert (Ht : is_text (t_TempF e) = false).
  { apply Ha0. apply in_map. apply filter_In. split; [assumption|].
    apply Z.eqb_refl. }
  destruct (t_TempF e) as [|q|s]; [discriminate | eauto | discriminate].
Qed.

End CleanedTemperatures.

(** X7.  One text among the temperatures of the Berkeley file makes the
    temperature loader raise a [TypeError], whatever the other rows and the
    other files hold, also when the date of that row does not parse. *)
Theorem berkeley_text_always_raises `{RT : PandasRuntime}
    (gia : list gia_row) (berk : list berk_row) (josep : list josep_row)
    (r : berk_row) :
  In r berk ->
  is_text (berk_LandAndOceanAverageTemperature r) = true ->
  load_temperature_data gia berk josep = Raise TypeError.
Proof.
  intros Hin Ht.
  destruct (berk_LandAndOceanAverageTemperature r) as [|q|s] eqn:Es;
    try discriminate.
  eapply berkeley_text_raises; eauto.
Qed.

Lemma berkeley_text_always_raises_witness :
  In {| berk_dt := Str "never"; berk_LandAndOceanAverageTemperature := Str "abc" |}
     (ex_berk ++ [ {| berk_dt := Str "never";
                      berk_LandAndOceanAverageTemperature := Str "abc" |} ]) /\
  is_text (Str "abc") = true /\
  load_temperature_data (RT := ref_runtime) ex_gia
    (ex_berk ++ [ {| berk_dt := Str "never";
                     berk_LandAndOceanAverageTemperature := Str "abc" |} ])
    ex_josep = Raise TypeError.
Proof.
  assert (H : In {| berk_dt := Str "never";
                    berk_LandAndOceanAverageTemperature := Str "abc" |}
                 (ex_berk ++ [ {| berk_dt := Str "never";
                                  berk_LandAndOceanAverageTemperature := Str "abc" |} ]))
    by (apply in_or_app; right; left; reflexivity).
  split; [exact H|]. split; [reflexivity|].
  exact (berkeley_text_always_raises (RT := ref_runtime) ex_gia _ ex_josep _ H
           eq_refl).
Defined.

(** X8.  A row of the Gia file whose year is not missing and whose
    temperature is a text is not dropped: it makes the temperature loader
    raise. *)
Theorem gia_text_temperature_raises `{RT : PandasRuntime}
    (gia : list gia_row) (berk : list berk_row) (josep : list josep_row)
    (g : gia_row) :
  In g gia ->
  notna (gia_Year g) = true ->
  is_text (gia_Average_Fahrenheit_Temperature g) = true ->
  exists e, load_temperature_data gia berk josep = Raise e.
Proof.
  intros Hin Hy Ht.
  destruct (load_temperature_data gia berk josep) as [(ta, annual)|e] eqn:E;
    [exfalso | eauto].
  pose proof E as E'.
  apply load_temperature_data_inv in E' as (tb & _ & HF & _).
  assert (Hraw : In {| raw_year := gia_Year g;
                       raw_TempF := gia_Average_Fahrenheit_Temperature g;
                       raw_source := Gia_Bach_Nguyen |}
                    (dropna_temps (temps_gia gia ++ tb ++ temps_josep josep))).
  { unfold dropna_temps. apply filter_In. split.
    - apply in_or_app. left. unfold temps_gia.
      apply in_map_iff. now exists g.
    - simpl. rewrite Hy. simpl.
      destruct (gia_Average_Fahrenheit_Temperature g); [discriminate|reflexivity|reflexivity]. }
  destruct (Forall2_In_l _ _ _ _ HF Hraw) as (row & Hrow & Erow).
  destruct (temps_all_numeric _ _ _ _ _ _ E Hrow) as (q & Eq).
  unfold temp_year_astype_int in Erow. inv_bind Erow. injection Erow as <-.
  simpl in Eq. rewrite Eq in Ht. discriminate.
Qed.

Lemma gia_text_temperature_raises_witness :
  In {| gia_Year := Str "2019";
        gia_Average_Fahrenheit_Temperature := Str "warm" |} ex_gia_text /\
  notna (Str "2019") = true /\
  is_text (Str "warm") = true /\
  exists e, load_temperature_data (RT := ref_runtime) ex_gia_text ex_berk ex_josep
            = Raise e.
Proof.
  assert (H : In {| gia_Year := Str "2019";
                    gia_Average_Fahrenheit_Temperature := Str "warm" |}
                 ex_gia_text) by (left; reflexivity).
  split; [exact H|]. split; [reflexivity|]. split; [reflexivity|].
  exact (gia_text_temperature_raises (RT := ref_runtime)
           ex_gia_text ex_berk ex_josep _ H eq_refl eq_refl).
Defined.

(** X9.  A row of the Gia file whose temperature is not missing and whose
    year is a text that [int] rejects is not dropped either: the
    temperature loader raises. *)
Theorem gia_text_year_raises `{RT : PandasRuntime}
    (gia : list gia_row) (berk : list berk_row) (josep : list josep_row)
    (g : gia_row) (s : string) :
  In g gia ->
  gia_Year g = Str s -> int_of_text s = None ->
  notna (gia_Average_Fahrenheit_Temperature g) = true ->
  exists e, load_temperature_data gia berk josep = Raise e.
Proof.
  intros Hin Ey Hs Ht.
  destruct (load_temperature_data gia berk josep) as [(ta, annual)|e] eqn:E;
    [exfalso | eauto].
  apply load_temperature_data_inv in E as (tb & _ & HF & _).
  assert (Hraw : In {| raw_year := gia_Year g;
                       raw_TempF := gia_Average_Fahrenheit_Temperature g;
                       raw_source := Gia_Bach_Nguyen |}
                    (dropna_temps (temps_gia gia ++ tb ++ temps_josep josep))).
  { unfold dropna_temps. apply filter_In. split.
    - apply in_or_app. left. unfold temps_gia.
      apply in_map_iff. now exists g.
    - simpl. rewrite Ht, Ey. reflexivity. }
  destruct (Forall2_In_l _ _ _ _ HF Hraw) as (row & _ & Erow).
  unfold temp_year_astype_int in Erow. simpl in Erow.
  rewrite Ey in Erow. simpl in Erow. rewrite Hs in Erow. discriminate.
Qed.

Lemma gia_text_year_raises_witness :
  In {| gia_Year := Str "MMXIX";
        gia_Average_Fahrenheit_Temperature := Str "57.0" |} ex_gia_year_text /\
  int_of_text (PandasRuntime := ref_runtime) "MMXIX" = None /\
  notna (Str "57.0") = true /\
  exists e, load_temperature_data (RT := ref_runtime)
              ex_gia_year_text ex_berk ex_josep = Raise e.
Proof.
  assert (H : In {| gia_Year := Str "MMXIX";
                    gia_Average_Fahrenheit_Temperature := Str "57.0" |}
                 ex_gia_year_text) by (left; reflexivity).
  split; [exact H|]. split; [reflexivity|]. split; [reflexivity|].
  exact (gia_text_year_raises (RT := ref_runtime)
           ex_gia_year_text ex_berk ex_josep _ "MMXIX" H eq_refl eq_refl eq_refl).
Defined.

(** ** The merged table of the pipeline *)

(** X10.  [build_merged_dataset] raises exactly when the temperature loader
    raises, and then the same exception: the disaster loader and the merge
    never raise.  When it returns, the two aggregates are those of the two
    loaders and the third component is their merge. *)
Theorem build_merged_dataset_outcome `{RT : PandasRuntime}
    (gia : list gia_row) (berk : list berk_row) (josep : list josep_row)
    (bar : list bar_row) (shrey : list shrey_row) :
  (forall e, build_merged_dataset gia berk josep bar shrey = Raise e <->
             load_temperature_data gia berk josep = Raise e) /\
  (forall ta dy m,
     build_merged_dataset gia berk josep bar shrey = Ok (ta, dy, m) <->
     (exists tall, load_temperature_data gia berk josep = Ok (tall, ta)) /\
     (exists dall, load_disaster_data bar shrey = Ok (dall, dy)) /\
     m = merged_of ta dy).
Proof.
  unfold build_merged_dataset. rewrite load_disaster_data_eq.
  destruct (load_temperature_data gia berk josep) as [(tall, ta0)|e0]; simpl.
  - split.
    + intros e. split; discriminate.
    + intros ta dy m. split.
      * intros [= <- <- <-]. eauto.
      * intros ((tall' & [= _ <-]) & (dall & [= _ <-]) & ->). reflexivity.
  - split.
    + intros e. split; intros [= ->]; reflexivity.
    + intros ta dy m. split; [discriminate|].
      intros ((tall' & E) & _). discriminate.
Qed.

Section PipelineMerge.
Context `{RT : PandasRuntime}.

(** What a returning run of the pipeline knows of its two aggregates. *)
Lemma pipeline_aggregates
    (gia : list gia_row) (berk : list berk_row) (josep : list josep_row)
    (bar : list bar_row) (shrey : list shrey_row)
    (ta : list (Z * float64)) (dy : list (Z * Z)) (m : list merged_row) :
  build_merged_dataset gia berk josep bar shrey = Ok (ta, dy, m) ->
  StronglySorted Z.lt (map fst ta) /\
  StronglySorted Z.lt (map fst dy) /\
  Forall (fun p => 1 <= snd p) dy /\
  dy = groupby_year_size (cleaned_events bar shrey) /\
  m = merge_outer ta dy.
Proof.
  intros E. apply build_merged_dataset_merged in E
    as ((tall & Et) & (dall & Ed) & ->).
  rewrite load_disaster_data_eq in Ed. injection Ed as <- <-.
  apply load_temperature_data_inv in Et as (tb & _ & _ & Eann).
  assert (Hta : StronglySorted Z.lt (map fst ta))
    by (rewrite (groupby_year_mean_keys _ _ Eann); apply unique_sorted_sorted).
  assert (Hdy : StronglySorted Z.lt
                  (map fst (groupby_year_size (cleaned_events bar shrey))))
    by (rewrite groupby_year_size_keys; apply unique_sorted_sorted).
  split; [exact Hta|]. split; [exact Hdy|]. split; [|split].
  - apply Forall_forall. intros (y, n) Hin.
    apply groupby_year_size_In in Hin. simpl. tauto.
  - reflexivity.
  - apply merged_of_unique; now apply StronglySorted_lt_NoDup.
Qed.
End PipelineMerge.

(** X11.  In the merged table that the pipeline returns, with no
    assumption on the files: the years are strictly ascending and are those
    of the two aggregates; a row carries the temperature that the
    temperature aggregate has for its year, whatever that value is, and NaN
    when the aggregate has no row for the year; its count is missing
    exactly in the years without events. *)
Theorem pipeline_merged_rows `{RT : PandasRuntime}
    (gia : list gia_row) (berk : list berk_row) (josep : list josep_row)
    (bar : list bar_row) (shrey : list shrey_row)
    (temps_annual : list (Z * float64)) (disasters_per_year : list (Z * Z))
    (merged : list merged_row) :
  build_merged_dataset gia berk josep bar shrey
    = Ok (temps_annual, disasters_per_year, merged) ->
  StronglySorted Z.lt (map m_year merged) /\
  (forall y, In y (map m_year merged) <->
             In y (map fst temps_annual) \/ In y (map fst disasters_per_year)) /\
  (forall r, In r merged ->
     (forall v, In (m_year r, v) temps_annual -> m_TempF r = v) /\
     (~ In (m_year r) (map fst temps_annual) -> m_TempF r = None) /\
     (forall n, In (m_year r, n) disasters_per_year ->
                m_disaster_count r = Some (Z2Qc n)) /\
     (m_disaster_count r = None <->
      ~ In (m_year r) (map fst disasters_per_year))).
Proof.
  intros E.
  destruct (pipeline_aggregates _ _ _ _ _ _ _ _ E)
    as (Hta & Hdy & _ & _ & ->).
  apply StronglySorted_lt_NoDup in Hta, Hdy.
  rewrite merge_outer_years by assumption.
  split; [apply unique_sorted_sorted|]. split.
  - intros y. rewrite unique_sorted_In. apply in_app_iff.
  - intros r Hr.
    destruct (merge_outer_row _ _ _ Hta Hdy Hr) as (H1 & H2 & H3 & H4).
    split; [exact H1|]. split; [exact H2|]. split; [exact H3|].
    split; [|exact H4]. intros En Hin.
    apply in_map_iff in Hin as ((y, n) & Ey & Hin). simpl in Ey. subst y.
    rewrite (H3 n Hin) in En. discriminate.
Qed.

Lemma pipeline_merged_rows_witness :
  exists temps_annual disasters_per_year merged,
    build_merged_dataset (RT := ref_runtime) ex_gia ex_berk ex_josep ex_bar ex_shrey
      = Ok (temps_annual, disasters_per_year, merged) /\
    map m_year merged = [2019; 2020; 2021] /\
    StronglySorted Z.lt (map m_year merged) /\
    (forall y, In y (map m_year merged) <->
               In y (map fst temps_annual) \/ In y (map fst disasters_per_year)) /\
    (forall r, In r merged ->
       (forall v, In (m_year r, v) temps_annual -> m_TempF r = v) /\
       (~ In (m_year r) (map fst temps_annual) -> m_TempF r = None) /\
       (forall n, In (m_year r, n) disasters_per_year ->
                  m_disaster_count r = Some (Z2Qc n)) /\
       (m_disaster_count r = None <->
        ~ In (m_year r) (map fst disasters_per_year))).
Proof.
  eexists. eexists. eexists. split; [vm_compute; reflexivity|].
  split; [reflexivity|].
  eapply (pipeline_merged_rows (RT := ref_runtime)
            ex_gia ex_berk ex_josep ex_bar ex_shrey).
  vm_compute. reflexivity.
Defined.

(** Two frames in strictly ascending key order that hold the same rows are
    the same frame. *)
Lemma sorted_frames_equal {B : Type} (l1 l2 : list (Z * B)) :
  StronglySorted Z.lt (map fst l1) -> StronglySorted Z.lt (map fst l2) ->
  (forall p, In p l1 <-> In p l2) -> l1 = l2.
Proof.
  revert l2. induction l1 as [|p l1 IH]; intros l2 H1 H2 Hin.
  - destruct l2 as [|q l2]; [reflexivity|].
    exfalso. apply (proj2 (Hin q)). now left.
  - destruct l2 as [|q l2]; [exfalso; apply (proj1 (Hin p)); now left|].
    simpl in H1, H2.
    apply StronglySorted_inv in H1 as (H1 & Hp).
    apply StronglySorted_inv in H2 as (H2 & Hq).
    rewrite Forall_forall in Hp, Hq.
    assert (Epq : p = q).
    { destruct (proj1 (Hin p) (or_introl eq_refl)) as [E|Hp2]; [now symmetry|].
      destruct (proj2 (Hin q) (or_introl eq_refl)) as [E|Hq1]; [assumption|].
      specialize (Hq (fst p) (in_map fst _ _ Hp2)).
      specialize (Hp (fst q) (in_map fst _ _ Hq1)). lia. }
    subst q. f_equal. apply IH; try assumption.
    intros x. split; intros Hx.
    + destruct (proj1 (Hin x) (or_intror Hx)) as [<-|Hx2]; [|assumption].
      specialize (Hp (fst p) (in_map fst _ _ Hx)). lia.
    + destruct (proj2 (Hin x) (or_intror Hx)) as [<-|Hx1]; [|assumption].
      specialize (Hq (fst p) (in_map fst _ _ Hx)). lia.
Qed.

Lemma StronglySorted_flat_map_keys {A B : Type} (key : A -> Z)
    (f : A -> list (Z * B)) (l : list A) :
  (forall a p, In p (f a) -> f a = [p] /\ fst p = key a) ->
  StronglySorted Z.lt (map key l) ->
  StronglySorted Z.lt (map fst (flat_map f l)).
Proof.
  intros Hf. induction l as [|a l IH]; simpl; intros Hs; [constructor|].
  apply StronglySorted_inv in Hs as (Hs & Ha).
  destruct (f a) as [|p fa] eqn:Efa; simpl; [auto|].
  destruct (Hf a p) as (E1 & Ek); [rewrite Efa; now left|].
  rewrite Efa in E1. injection E1 as ->. simpl.
  constructor; [auto|].
  apply Forall_forall. intros k Hk.
  apply in_map_iff in Hk as (q & <- & Hq).
  apply in_flat_map in Hq as (b & Hb & Hq).
  destruct (Hf b q Hq) as (_ & ->). rewrite Ek.
  rewrite Forall_forall in Ha. apply Ha. now apply in_map.
Qed.

Lemma pipeline_merge_sides `{RT : PandasRuntime}
    (gia : list gia_row) (berk : list berk_row) (josep : list josep_row)
    (bar : list bar_row) (shrey : list shrey_row)
    (temps_annual : list (Z * float64)) (disasters_per_year : list (Z * Z))
    (merged : list merged_row) :
  build_merged_dataset gia berk josep bar shrey
    = Ok (temps_annual, disasters_per_year, merged) ->
  temperature_side (map fst temps_annual) merged = temps_annual /\
  disaster_side merged =
    map (fun p => (fst p, Z2Qc (snd p))) disasters_per_year.
Proof.
  intros E.
  destruct (pipeline_aggregates _ _ _ _ _ _ _ _ E)
    as (Hta & Hdy & _ & _ & ->).
  pose proof (StronglySorted_lt_NoDup _ Hta) as Nta.
  pose proof (StronglySorted_lt_NoDup _ Hdy) as Ndy.
  pose proof (merge_outer_years _ _ Nta Ndy) as Hk.
  assert (Hsorted : StronglySorted Z.lt
                      (map m_year (merge_outer temps_annual disasters_per_year)))
    by (rewrite Hk; apply unique_sorted_sorted).
  assert (Hyears : forall y,
             In y (map m_year (merge_outer temps_annual disasters_per_year)) <->
             In y (map fst temps_annual) \/ In y (map fst disasters_per_year))
    by (intros y; rewrite Hk, unique_sorted_In; apply in_app_iff).
  split.
  - apply sorted_frames_equal; [|assumption|].
    + unfold temperature_side.
      apply StronglySorted_flat_map_keys with (key := m_year); [|assumption].
      intros r p Hp. destruct (existsb _ _); [|destruct Hp].
      destruct Hp as [<-|[]]. auto.
    + intros (y, v). unfold temperature_side. rewrite in_flat_map. split.
      * intros (r & Hr & Hp).
        destruct (existsb (Z.eqb (m_year r)) (map fst temps_annual)) eqn:Ey;
          [|destruct Hp].
        destruct Hp as [[= <- <-]|[]].
        destruct (merge_outer_row _ _ _ Nta Ndy Hr) as (H1 & _).
        apply existsb_exists in Ey as (y' & Hin & Ey).
        apply Z.eqb_eq in Ey. subst y'.
        apply in_map_iff in Hin as ((y', v') & Ey & Hin). simpl in Ey.
        subst y'. rewrite (H1 v' Hin). exact Hin.
      * intros Hin.
        assert (Hy : In y (map m_year (merge_outer temps_annual disasters_per_year)))
          by (apply Hyears; left; apply in_map_iff; now exists (y, v)).
        apply in_map_iff in Hy as (r & <- & Hr). exists r. split; [assumption|].
        destruct (merge_outer_row _ _ _ Nta Ndy Hr) as (H1 & _).
        assert (Ey : existsb (Z.eqb (m_year r)) (map fst temps_annual) = true).
        { apply existsb_exists. exists (m_year r). split; [|apply Z.eqb_refl].
          apply in_map_iff. now exists (m_year r, v). }
        rewrite Ey, (H1 v Hin). now left.
  - apply sorted_frames_equal.
    + unfold disaster_side.
      apply StronglySorted_flat_map_keys with (key := m_year); [|assumption].
      intros r p Hp. destruct (m_disaster_count r); [|destruct Hp].
      destruct Hp as [<-|[]]. auto.
    + rewrite map_map. simpl. exact Hdy.
    + intros (y, c). unfold disaster_side.
      rewrite in_flat_map, in_map_iff. split.
      * intros (r & Hr & Hp).
        destruct (m_disaster_count r) as [c'|] eqn:Ec; [|destruct Hp].
        destruct Hp as [[= <- <-]|[]].
        destruct (merge_outer_row _ _ _ Nta Ndy Hr) as (_ & _ & H3 & H4).
        destruct (in_dec Z.eq_dec (m_year r) (map fst disasters_per_year))
          as [Hin|Hn].
        -- apply in_map_iff in Hin as ((y', n) & Ey & Hin). simpl in Ey.
           subst y'. exists (m_year r, n). split; [|assumption]. simpl.
           rewrite (H3 n Hin) in Ec. now injection Ec as <-.
        -- rewrite (H4 Hn) in Ec. discriminate.
      * intros ((y', n) & [= <- <-] & Hin).
        assert (Hy : In y' (map m_year (merge_outer temps_annual disasters_per_year)))
          by (apply Hyears; right; apply in_map_iff; now exists (y', n)).
        apply in_map_iff in Hy as (r & <- & Hr). exists r. split; [assumption|].
        destruct (merge_outer_row _ _ _ Nta Ndy Hr) as (_ & _ & H3 & _).
        rewrite (H3 n Hin). now left.
Qed.

(** X12.  Nothing is lost in the merge of the pipeline: the rows of the
    merged table in the years of the annual temperature aggregate are, in
    order and with their temperature, NaN or not, that aggregate; and the
    rows that carry a count are, in order, the annual disaster aggregate. *)
Theorem pipeline_merge_round_trip `{RT : PandasRuntime}
    (gia : list gia_row) (berk : list berk_row) (josep : list josep_row)
    (bar : list bar_row) (shrey : list shrey_row)
    (temps_annual : list (Z * float64)) (disasters_per_year : list (Z * Z))
    (merged : list merged_row) :
  build_merged_dataset gia berk josep bar shrey
    = Ok (temps_annual, disasters_per_year, merged) ->
  temperature_side (map fst temps_annual) merged = temps_annual /\
  disaster_side merged =
    map (fun p => (fst p, Z2Qc (snd p))) disasters_per_year.
Proof.
  apply pipeline_merge_sides.
Qed.

Lemma pipeline_merge_round_trip_witness :
  exists temps_annual disasters_per_year merged,
    build_merged_dataset (RT := ref_runtime) ex_gia ex_berk ex_josep ex_bar ex_shrey
      = Ok (temps_annual, disasters_per_year, merged) /\
    disasters_per_year = [(2021, 3)] /\
    temperature_side (map fst temps_annual) merged = temps_annual /\
    disaster_side merged =
      map (fun p => (fst p, Z2Qc (snd p))) disasters_per_year.
Proof.
  eexists. eexists. eexists. split; [vm_compute; reflexivity|].
  split; [reflexivity|].
  eapply (pipeline_merge_round_trip (RT := ref_runtime)
            ex_gia ex_berk ex_josep ex_bar ex_shrey).
  vm_compute. reflexivity.
Defined.

(** ** The summary of the pipeline's merged table *)

Lemma Z2Qc_plus (a b : Z) : Z2Qc (a + b) = (Z2Qc a + Z2Qc b)%Qc.
Proof.
  unfold Z2Qc, Qcplus. apply Q2Qc_eq_iff. cbn [this Q2Qc].
  rewrite !Qred_correct, inject_Z_plus. reflexivity.
Qed.

Lemma Z2Qc_le (a b : Z) : a <= b -> (Z2Qc a <= Z2Qc b)%Qc.
Proof.
  intros H. unfold Qcle, Z2Qc. cbn [this Q2Qc]. rewrite !Qred_correct.
  now rewrite <- Zle_Qle.
Qed.

Lemma Z2Qc_lt (a b : Z) : a < b -> (Z2Qc a < Z2Qc b)%Qc.
Proof.
  intros H. unfold Qclt, Z2Qc. cbn [this Q2Qc]. rewrite !Qred_correct.
  now rewrite <- Zlt_Qlt.
Qed.

Lemma Qc_sum_Z2Qc (l : list Z) : Qc_sum (map Z2Qc l) = Z2Qc (Z_sum l).
Proof.
  induction l as [|z l IH]; [reflexivity|].
  cbn [map Qc_sum fold_right]. fold (Qc_sum (map Z2Qc l)).
  rewrite IH, Z_sum_cons. symmetry. apply Z2Qc_plus.
Qed.

Lemma dropna_values_disaster_side (merged : list merged_row) :
  dropna_values (map m_disaster_count merged) = map snd (disaster_side merged).
Proof.
  unfold dropna_values, disaster_side.
  induction merged as [|r merged IH]; simpl; [reflexivity|].
  rewrite map_app, IH. now destruct (m_disaster_count r).
Qed.

(** X13.  The summary of the merged table of the pipeline counts what the
    disaster loader found: [Count] is the number of years that have events,
    [Sum] the number of cleaned events, and [Min], which is NaN exactly
    when there is no event at all, is at least 1. *)
Theorem pipeline_summary_counts_events `{RT : PandasRuntime}
    (gia : list gia_row) (berk : list berk_row) (josep : list josep_row)
    (bar : list bar_row) (shrey : list shrey_row)
    (temps_annual : list (Z * float64)) (disasters_per_year : list (Z * Z))
    (merged : list merged_row) :
  build_merged_dataset gia berk josep bar shrey
    = Ok (temps_annual, disasters_per_year, merged) ->
  exists disasters_all,
    load_disaster_data bar shrey = Ok (disasters_all, disasters_per_year) /\
    let s := compute_disaster_summary merged in
    Count s = Some (Z2Qc (Z.of_nat (length disasters_per_year))) /\
    Sum s = Some (Z2Qc (Z.of_nat (length disasters_all))) /\
    (Min s = None <-> disasters_all = []) /\
    (forall mn, Min s = Some mn -> (Z2Qc 1 <= mn)%Qc).
Proof.
  intros E.
  destruct (pipeline_merge_sides _ _ _ _ _ _ _ _ E) as (_ & Hside).
  destruct (pipeline_aggregates _ _ _ _ _ _ _ _ E)
    as (_ & _ & Hpos & Edy & _).
  exists (cleaned_events bar shrey). split.
  { rewrite load_disaster_data_eq. now rewrite Edy. }
  assert (Hxs : dropna_values (map m_disaster_count merged) =
                map Z2Qc (map snd disasters_per_year)).
  { rewrite dropna_values_disaster_side, Hside, !map_map. reflexivity. }
  unfold compute_disaster_summary. cbv zeta. simpl.
  split; [|split; [|split]].
  - rewrite count_dropna, Hxs, !length_map. reflexivity.
  - rewrite nansum_dropna, Hxs, Qc_sum_Z2Qc. do 2 f_equal.
    rewrite Edy. apply groupby_year_size_total.
  - pose proof (nanmin_spec (map m_disaster_count merged)) as Hm.
    rewrite Hxs in Hm.
    assert (Hempty : disasters_per_year = [] <-> cleaned_events bar shrey = []).
    { rewrite Edy. unfold groupby_year_size, groupby.
      split; intros H0.
      - apply map_eq_nil, map_eq_nil in H0.
        destruct (cleaned_events bar shrey) as [|e l]; [reflexivity|].
        exfalso. assert (Hin : In (d_year e) (unique_sorted (map d_year (e :: l))))
          by (apply unique_sorted_In; now left).
        rewrite H0 in Hin. destruct Hin.
      - now rewrite H0. }
    rewrite <- Hempty. destruct (nanmin _) as [mn|].
    + split; [discriminate|]. intros ->. destruct Hm as ([] & _).
    + split; [intros _|reflexivity].
      apply map_eq_nil, map_eq_nil in Hm. exact Hm.
  - intros mn Emn.
    pose proof (nanmin_spec (map m_disaster_count merged)) as Hm.
    rewrite Emn, Hxs in Hm. destruct Hm as (Hin & _).
    apply in_map_iff in Hin as (n & <- & Hn).
    apply in_map_iff in Hn as (p & <- & Hp).
    rewrite Forall_forall in Hpos. apply Z2Qc_le. now apply Hpos.
Qed.

Lemma pipeline_summary_counts_events_witness :
  exists temps_annual disasters_per_year merged,
    build_merged_dataset (RT := ref_runtime) ex_gia ex_berk ex_josep ex_bar ex_shrey
      = Ok (temps_annual, disasters_per_year, merged) /\
    exists disasters_all,
      load_disaster_data (RT := ref_runtime) ex_bar ex_shrey
        = Ok (disasters_all, disasters_per_year) /\
      let s := compute_disaster_summary (RT := ref_runtime) merged in
      Count s = Some (Z2Qc (Z.of_nat (length disasters_per_year))) /\
      Sum s = Some (Z2Qc (Z.of_nat (length disasters_all))) /\
      (Min s = None <-> disasters_all = []) /\
      (forall mn, Min s = Some mn -> (Z2Qc 1 <= mn)%Qc).
Proof.
  eexists. eexists. eexists. split; [vm_compute; reflexivity|].
  eapply (pipeline_summary_counts_events (RT := ref_runtime)
            ex_gia ex_berk ex_josep ex_bar ex_shrey).
  vm_compute. reflexivity.
Defined.

(** ** Order among the statistics *)

Lemma Z2Qc_succ (n : nat) :
  Z2Qc (Z.of_nat (S n)) = (1 + Z2Qc (Z.of_nat n))%Qc.
Proof.
  rewrite Nat2Z.inj_succ, <- Z.add_1_l. apply Z2Qc_plus.
Qed.

Lemma Qc_sum_lower (lo : Qc) (xs : list Qc) :
  Forall (fun x => (lo <= x)%Qc) xs ->
  (Z2Qc (Z.of_nat (length xs)) * lo <= Qc_sum xs)%Qc.
Proof.
  induction 1 as [|x xs Hx Hxs IH].
  - cbn. change (Z2Qc 0) with 0%Qc. rewrite Qcmult_0_l. apply Qcle_refl.
  - cbn [length Qc_sum fold_right]. fold (Qc_sum xs). rewrite Z2Qc_succ.
    replace ((1 + Z2Qc (Z.of_nat (length xs))) * lo)%Qc
      with (lo + Z2Qc (Z.of_nat (length xs)) * lo)%Qc by ring.
    now apply Qcplus_le_compat.
Qed.

Lemma Qc_sum_upper (hi : Qc) (xs : list Qc) :
  Forall (fun x => (x <= hi)%Qc) xs ->
  (Qc_sum xs <= Z2Qc (Z.of_nat (length xs)) * hi)%Qc.
Proof.
  induction 1 as [|x xs Hx Hxs IH].
  - cbn. change (Z2Qc 0) with 0%Qc. rewrite Qcmult_0_l. apply Qcle_refl.
  - cbn [length Qc_sum fold_right]. fold (Qc_sum xs). rewrite Z2Qc_succ.
    replace ((1 + Z2Qc (Z.of_nat (length xs))) * hi)%Qc
      with (hi + Z2Qc (Z.of_nat (length xs)) * hi)%Qc by ring.
    now apply Qcplus_le_compat.
Qed.

Lemma Qc_div_bounds (lo hi s n : Qc) :
  (0 < n)%Qc -> (n * lo <= s)%Qc -> (s <= n * hi)%Qc ->
  (lo <= s / n)%Qc /\ (s / n <= hi)%Qc.
Proof.
  intros Hn Hlo Hhi.
  assert (Hne : n <> 0%Qc) by (intros E; rewrite E in Hn; now apply Qclt_not_eq in Hn).
  assert (E : (s / n * n)%Qc = s) by (rewrite Qcmult_comm; now apply Qcmult_div_r).
  split; apply Qcmult_lt_0_le_reg_r with n; try assumption; rewrite E.
  - now rewrite Qcmult_comm.
  - now rewrite Qcmult_comm.
Qed.

Lemma Qc_midpoint_bounds (lo hi a b : Qc) :
  (lo <= a)%Qc -> (a <= hi)%Qc -> (lo <= b)%Qc -> (b <= hi)%Qc ->
  (lo <= (a + b) / Z2Qc 2)%Qc /\ ((a + b) / Z2Qc 2 <= hi)%Qc.
Proof.
  intros H1 H2 H3 H4.
  assert (E2 : Z2Qc 2 = (1 + 1)%Qc) by (apply (Z2Qc_plus 1 1)).
  apply Qc_div_bounds.
  - change 0%Qc with (Z2Qc 0). now apply Z2Qc_lt.
  - rewrite E2. replace ((1 + 1) * lo)%Qc with (lo + lo)%Qc by ring.
    now apply Qcplus_le_compat.
  - rewrite E2. replace ((1 + 1) * hi)%Qc with (hi + hi)%Qc by ring.
    now apply Qcplus_le_compat.
Qed.

Lemma median_of_bounds (lo hi : Qc) (xs : list Qc) (m : Qc) :
  xs <> [] ->
  Forall (fun x => (lo <= x)%Qc) xs -> Forall (fun x => (x <= hi)%Qc) xs ->
  median_of xs m -> (lo <= m)%Qc /\ (m <= hi)%Qc.
Proof.
  intros Hne Hlo Hhi (s & Hp & _ & ->).
  assert (Hlen : (0 < length s)%nat).
  { destruct s; [|simpl; lia]. apply Permutation_nil in Hp. congruence. }
  assert (Hnth : forall i, (i < length s)%nat ->
                   (lo <= nth i s 0)%Qc /\ (nth i s 0 <= hi)%Qc).
  { intros i Hi. pose proof (nth_In s 0%Qc Hi) as Hin.
    apply (Permutation_in _ Hp) in Hin.
    rewrite Forall_forall in Hlo, Hhi. auto. }
  assert (Hhalf : (length s / 2 < length s)%nat)
    by (apply Nat.div_lt; lia).
  destruct (Nat.odd (length s)); [now apply Hnth|].
  destruct (Hnth (length s / 2)%nat Hhalf) as (A1 & A2).
  destruct (Hnth (length s / 2 - 1)%nat) as (B1 & B2); [lia|].
  now apply Qc_midpoint_bounds.
Qed.

(** On exact values that are not all missing, the statistics of location
    of a column lie between its smallest and its largest entry. *)
Lemma column_location_order (dc : list float64) :
  dropna_values dc <> [] ->
  exists mn mean md mx,
    nanmin dc = Some mn /\ nanmean dc = Some mean /\
    nanmedian dc = Some md /\ nanmax dc = Some mx /\
    In mn (dropna_values dc) /\ In mx (dropna_values dc) /\
    (mn <= mean)%Qc /\ (mean <= mx)%Qc /\ (mn <= md)%Qc /\ (md <= mx)%Qc.
Proof.
  intros Hne.
  pose proof (nanmin_spec dc) as Hmin. pose proof (nanmax_spec dc) as Hmax.
  pose proof (nanmedian_spec dc) as Hmed.
  destruct (nanmin dc) as [mn|]; [|contradiction].
  destruct (nanmax dc) as [mx|]; [|contradiction].
  destruct (nanmedian dc) as [md|]; [|contradiction].
  destruct Hmin as (Imin & Hlo). destruct Hmax as (Imax & Hhi).
  assert (Hn : 0 < Z.of_nat (length (dropna_values dc)))
    by (destruct (dropna_values dc); [congruence | simpl; lia]).
  exists mn, (Qc_sum (dropna_values dc)
              / Z2Qc (Z.of_nat (length (dropna_values dc))))%Qc, md, mx.
  split; [reflexivity|]. split.
  { unfold nanmean. rewrite count_dropna, nansum_dropna.
    destruct (Z.eqb_spec (Z.of_nat (length (dropna_values dc))) 0); [lia|].
    reflexivity. }
  split; [reflexivity|]. split; [reflexivity|].
  split; [exact Imin|]. split; [exact Imax|].
  destruct (Qc_div_bounds mn mx (Qc_sum (dropna_values dc))
              (Z2Qc (Z.of_nat (length (dropna_values dc))))) as (M1 & M2).
  { change 0%Qc with (Z2Qc 0). now apply Z2Qc_lt. }
  { now apply Qc_sum_lower. }
  { now apply Qc_sum_upper. }
  destruct (median_of_bounds mn mx _ md Hne Hlo Hhi Hmed) as (D1 & D2).
  auto.
Qed.

(** X14.  In the summary of the merged table of the pipeline, as soon as
    one event was kept: [Min] and [Max] are the counts of two years of the
    annual disaster aggregate, whole numbers of events, and [Mean] and
    [Median] are numbers that lie between them:
    [Min <= Mean <= Max] and [Min <= Median <= Max]. *)
Theorem summary_location_order `{RT : PandasRuntime}
    (gia : list gia_row) (berk : list berk_row) (josep : list josep_row)
    (bar : list bar_row) (shrey : list shrey_row)
    (temps_annual : list (Z * float64)) (disasters_per_year : list (Z * Z))
    (merged : list merged_row) :
  build_merged_dataset gia berk josep bar shrey
    = Ok (temps_annual, disasters_per_year, merged) ->
  disasters_per_year <> [] ->
  exists (ylo yhi lo hi : Z) (mean md : Qc),
    In (ylo, lo) disasters_per_year /\ In (yhi, hi) disasters_per_year /\
    Min (compute_disaster_summary merged) = Some (Z2Qc lo) /\
    Mean (compute_disaster_summary merged) = Some mean /\
    Median (compute_disaster_summary merged) = Some md /\
    Max (compute_disaster_summary merged) = Some (Z2Qc hi) /\
    (Z2Qc lo <= mean)%Qc /\ (mean <= Z2Qc hi)%Qc /\
    (Z2Qc lo <= md)%Qc /\ (md <= Z2Qc hi)%Qc.
Proof.
  intros E Hne.
  destruct (pipeline_merge_sides _ _ _ _ _ _ _ _ E) as (_ & Hside).
  assert (Hxs : dropna_values (map m_disaster_count merged) =
                map (fun p => Z2Qc (snd p)) disasters_per_year).
  { rewrite dropna_values_disaster_side, Hside, map_map. reflexivity. }
  destruct (column_location_order (map m_disaster_count merged))
    as (mn & mean & md & mx & E1 & E2 & E3 & E4 & Imin & Imax & Hord).
  { rewrite Hxs. destruct disasters_per_year; [congruence | discriminate]. }
  rewrite Hxs in Imin, Imax.
  apply in_map_iff in Imin as ((ylo, lo) & <- & Ilo).
  apply in_map_iff in Imax as ((yhi, hi) & <- & Ihi).
  exists ylo, yhi, lo, hi, mean, md.
  unfold compute_disaster_summary. simpl. simpl in E1, E4, Hord. tauto.
Qed.

Lemma summary_location_order_witness :
  exists temps_annual disasters_per_year merged,
    build_merged_dataset (RT := ref_runtime) ex_gia ex_berk ex_josep ex_bar ex_shrey
      = Ok (temps_annual, disasters_per_year, merged) /\
    disasters_per_year = [(2021, 3)] /\
    exists (ylo yhi lo hi : Z) (mean md : Qc),
      In (ylo, lo) disasters_per_year /\ In (yhi, hi) disasters_per_year /\
      Min (compute_disaster_summary (RT := ref_runtime) merged)
        = Some (Z2Qc lo) /\
      Mean (compute_disaster_summary (RT := ref_runtime) merged) = Some mean /\
      Median (compute_disaster_summary (RT := ref_runtime) merged) = Some md /\
      Max (compute_disaster_summary (RT := ref_runtime) merged)
        = Some (Z2Qc hi) /\
      (Z2Qc lo <= mean)%Qc /\ (mean <= Z2Qc hi)%Qc /\
      (Z2Qc lo <= md)%Qc /\ (md <= Z2Qc hi)%Qc.
Proof.
  eexists. eexists. eexists. split; [vm_compute; reflexivity|].
  split; [reflexivity|].
  eapply (summary_location_order (RT := ref_runtime)
            ex_gia ex_berk ex_josep ex_bar ex_shrey).
  - vm_compute. reflexivity.
  - discriminate.
Defined.

(** ** Type frequencies of any events table *)

Lemma filter_notna_idem (col : list pyval) :
  filter notna (filter notna col) = filter notna col.
Proof.
  induction col as [|v col IH]; simpl; [reflexivity|].
  destruct (notna v) eqn:E; simpl; [rewrite E, IH|]; auto.
Qed.

Lemma value_counts_filter (col : list pyval) :
  value_counts col = value_counts (filter notna col).
Proof.
  unfold value_counts. now rewrite filter_notna_idem.
Qed.

Lemma filter_notna_Forall (col : list pyval) :
  Forall (fun v => notna v = true) (filter notna col).
Proof.
  apply Forall_forall. intros v Hv. now apply filter_In in Hv.
Qed.

Lemma count_occ_filter_notna (col : list pyval) (t : pyval) :
  notna t = true ->
  count_occ pyval_eq_dec (filter notna col) t = count_occ pyval_eq_dec col t.
Proof.
  intros Ht. induction col as [|v col IH]; simpl; [reflexivity|].
  destruct (notna v) eqn:Ev; simpl.
  - destruct (pyval_eq_dec v t); now rewrite IH.
  - destruct (pyval_eq_dec v t) as [->|_]; [congruence | assumption].
Qed.

(** X16.  On any events table, cleaned or not, [disaster_type_counts]
    never lists the missing marker: its keys are distinct types that are
    not missing, each with the number of its events, and the counts add up
    to the number of events that have a type. *)
Theorem type_counts_skip_missing `{RT : PandasRuntime}
    (disasters_all : list disaster_row) :
  NoDup (map fst (disaster_type_counts disasters_all)) /\
  (forall t n,
     In (t, n) (disaster_type_counts disasters_all) <->
     notna t = true /\
     n = Z.of_nat (count_occ pyval_eq_dec
                     (map d_disaster_type disasters_all) t) /\
     1 <= n) /\
  Z_sum (map snd (disaster_type_counts disasters_all)) =
    Z.of_nat (length (filter (fun e => notna (d_disaster_type e)) disasters_all)).
Proof.
  unfold disaster_type_counts. set (col := map d_disaster_type disasters_all).
  rewrite value_counts_filter.
  pose proof (filter_notna_Forall col) as Hn.
  split; [now apply value_counts_keys_NoDup|]. split.
  - intros t n. rewrite (value_counts_In _ Hn). split.
    + intros (-> & Hpos).
      assert (Ht : notna t = true).
      { destruct (count_occ pyval_eq_dec (filter notna col) t) eqn:Ec; [simpl in Hpos; lia|].
        assert (Hin : In t (filter notna col))
          by (apply (count_occ_In pyval_eq_dec); lia).
        now apply filter_In in Hin. }
      rewrite count_occ_filter_notna in * by assumption. auto.
    + intros (Ht & -> & Hpos). now rewrite count_occ_filter_notna.
  - rewrite (value_counts_total _ Hn). f_equal. subst col.
    clear Hn. induction disasters_all as [|e l IH]; simpl; [reflexivity|].
    destruct (notna (d_disaster_type e)); simpl; now rewrite IH.
Qed.

(** X17.  The first entry of [disaster_type_counts] is a most frequent
    type: no type has more events than the count it shows. *)
Theorem most_frequent_type_first `{RT : PandasRuntime}
    (disasters_all : list disaster_row) (t : pyval) (n : Z)
    (rest : list (pyval * Z)) :
  disaster_type_counts disasters_all = (t, n) :: rest ->
  n = Z.of_nat (count_occ pyval_eq_dec (map d_disaster_type disasters_all) t) /\
  forall t', notna t' = true ->
    Z.of_nat (count_occ pyval_eq_dec (map d_disaster_type disasters_all) t') <= n.
Proof.
  unfold disaster_type_counts. set (col := map d_disaster_type disasters_all).
  rewrite value_counts_filter. intros E.
  pose proof (filter_notna_Forall col) as Hn.
  pose proof (value_counts_descending (filter notna col)) as Hs.
  pose proof (value_counts_In _ Hn) as Hin.
  rewrite E in Hs, Hin.
  apply StronglySorted_inv in Hs as (_ & Hle). rewrite Forall_forall in Hle.
  destruct (proj1 (Hin t n) (or_introl eq_refl)) as (En & Hpos).
  assert (Ht : notna t = true).
  { destruct (count_occ pyval_eq_dec (filter notna col) t) eqn:Ec; [simpl in En; lia|].
    assert (Hi : In t (filter notna col))
      by (apply (count_occ_In pyval_eq_dec); lia).
    now apply filter_In in Hi. }
  split; [now rewrite <- (count_occ_filter_notna col t Ht)|].
  intros t' Ht'. rewrite <- (count_occ_filter_notna col t' Ht').
  destruct (count_occ pyval_eq_dec (filter notna col) t') as [|c] eqn:Ec;
    [simpl; lia|].
  assert (Hmem : In (t', Z.of_nat (S c)) ((t, n) :: rest))
    by (apply Hin; split; [now rewrite Ec | lia]).
  destruct Hmem as [Eq|Hr].
  - injection Eq as _ Eq. lia.
  - specialize (Hle _ Hr). simpl in Hle. lia.
Qed.

Lemma most_frequent_type_first_witness :
  disaster_type_counts
    (map (fun t => {| d_event_date := None; d_year := 2021;
                      d_disaster_type := Str t; d_source := Baris_Dincer |})
         ["Storm"; "Flood"; "Flood"]%string)
  = (Str "Flood", 2) :: [ (Str "Storm", 1) ] /\
  (2 = Z.of_nat (count_occ pyval_eq_dec
                   (map d_disaster_type
                      (map (fun t => {| d_event_date := None; d_year := 2021;
                                        d_disaster_type := Str t;
                                        d_source := Baris_Dincer |})
                           ["Storm"; "Flood"; "Flood"]%string)) (Str "Flood")) /\
   forall t', notna t' = true ->
     Z.of_nat (count_occ pyval_eq_dec
                 (map d_disaster_type
                    (map (fun t => {| d_event_date := None; d_year := 2021;
                                      d_disaster_type := Str t;
                                      d_source := Baris_Dincer |})
                         ["Storm"; "Flood"; "Flood"]%string)) t') <= 2).
Proof.
  split; [reflexivity|].
  apply (most_frequent_type_first (RT := ref_runtime)
           (map (fun t => {| d_event_date := None; d_year := 2021;
                             d_disaster_type := Str t;
                             d_source := Baris_Dincer |})
                ["Storm"; "Flood"; "Flood"]%string)
           (Str "Flood") 2 [ (Str "Storm", 1) ]).
  reflexivity.
Defined.

(** ** The page *)

Lemma cleaned_events_types_notna `{RT : PandasRuntime}
    (bar : list bar_row) (shrey : list shrey_row) :
  Forall (fun v => notna v = true)
         (map d_disaster_type (cleaned_events bar shrey)).
Proof.
  apply Forall_forall. intros v Hv. apply in_map_iff in Hv as (e & <- & He).
  unfold cleaned_events in He. rewrite in_app_iff, !in_flat_map in He.
  destruct He as [(r & _ & He)|(r & _ & He)];
    apply clean_event_In in He as (ts & _ & Hn & ->); exact Hn.
Qed.

(** X18.  The script ends with an exception exactly when the temperature
    loader raises, and with that exception; the page then holds the title
    and nothing else.  Otherwise the script runs to its end and the page
    holds nine widgets. *)
Theorem app_outcome `{RT : PandasRuntime}
    (gia : list gia_row) (berk : list berk_row) (josep : list josep_row)
    (bar : list bar_row) (shrey : list shrey_row) :
  (forall e, snd (app gia berk josep bar shrey) = Raise e <->
             load_temperature_data gia berk josep = Raise e) /\
  (forall e, snd (app gia berk josep bar shrey) = Raise e ->
             fst (app gia berk josep bar shrey) =
             [st_title "ENG 220 – Climate Change & Natural Disasters"]) /\
  (snd (app gia berk josep bar shrey) = Ok tt ->
   length (fst (app gia berk josep bar shrey)) = 9%nat).
Proof.
  unfold app, build_merged_dataset. rewrite load_disaster_data_eq.
  destruct (load_temperature_data gia berk josep) as [(tall, ta)|e0]; simpl.
  - split; [|split].
    + intros e. split; discriminate.
    + intros e. discriminate.
    + reflexivity.
  - split; [|split].
    + intros e. split; intros [= ->]; reflexivity.
    + reflexivity.
    + discriminate.
Qed.

(** X19.  When the temperature loader returns, the script runs to its end
    and renders nine widgets.  The two charts over the years are drawn
    from one merged table whose years are strictly ascending, so no year
    appears twice on an axis, and the numbers of the page agree: the [Sum]
    of the JSON view is the total of the bars of the type chart, both being
    the number of cleaned events. *)
Theorem app_page_is_consistent `{RT : PandasRuntime}
    (gia : list gia_row) (berk : list berk_row) (josep : list josep_row)
    (bar : list bar_row) (shrey : list shrey_row)
    (temps_all : list temp_row) (temps_annual : list (Z * float64)) :
  load_temperature_data gia berk josep = Ok (temps_all, temps_annual) ->
  exists merged s freq,
    app gia berk josep bar shrey =
    ([ st_title "ENG 220 – Climate Change & Natural Disasters";
       st_subheader "Annual Temperature vs. Disaster Counts";
       st_line_chart (indexed_TempF_disaster_count merged);
       st_subheader "Summary Statistics (Disasters per Year)";
       st_json s;
       st_subheader "Most Common Disaster Types";
       st_bar_chart (by_value freq);
       st_subheader "Histogram of Disaster Counts per Year";
       st_bar_chart (indexed_disaster_count merged) ], Ok tt) /\
    StronglySorted Z.lt (map m_year merged) /\
    Sum s = Some (Z2Qc (Z_sum (map snd freq))).
Proof.
  intros Et.
  set (dall := cleaned_events bar shrey).
  set (dy := groupby_year_size dall).
  assert (Eb : build_merged_dataset gia berk josep bar shrey
               = Ok (temps_annual, dy, merged_of temps_annual dy)).
  { unfold build_merged_dataset. rewrite Et, load_disaster_data_eq. reflexivity. }
  exists (merged_of temps_annual dy),
         (compute_disaster_summary (merged_of temps_annual dy)),
         (disaster_type_counts dall).
  split; [|split].
  - unfold app. rewrite Eb, load_disaster_data_eq. reflexivity.
  - destruct (pipeline_aggregates _ _ _ _ _ _ _ _ Eb)
      as (Hta & Hdy & _ & _ & Em).
    apply StronglySorted_lt_NoDup in Hta, Hdy.
    rewrite Em, merge_outer_years by assumption. apply unique_sorted_sorted.
  - destruct (pipeline_merge_sides _ _ _ _ _ _ _ _ Eb) as (_ & Hside).
    unfold compute_disaster_summary. simpl. f_equal.
    rewrite nansum_dropna, dropna_values_disaster_side, Hside, map_map. simpl.
    rewrite <- (map_map snd Z2Qc), Qc_sum_Z2Qc. f_equal.
    unfold dy. rewrite groupby_year_size_total.
    unfold disaster_type_counts.
    rewrite value_counts_total by apply cleaned_events_types_notna.
    now rewrite length_map.
Qed.

Lemma app_page_is_consistent_witness :
  exists temps_all temps_annual,
    load_temperature_data (RT := ref_runtime) ex_gia ex_berk ex_josep
      = Ok (temps_all, temps_annual) /\
    exists merged s freq,
      app (RT := ref_runtime) ex_gia ex_berk ex_josep ex_bar ex_shrey =
      ([ st_title "ENG 220 – Climate Change & Natural Disasters";
         st_subheader "Annual Temperature vs. Disaster Counts";
         st_line_chart (indexed_TempF_disaster_count merged);
         st_subheader "Summary Statistics (Disasters per Year)";
         st_json s;
         st_subheader "Most Common Disaster Types";
         st_bar_chart (by_value freq);
         st_subheader "Histogram of Disaster Counts per Year";
         st_bar_chart (indexed_disaster_count merged) ], Ok tt) /\
      StronglySorted Z.lt (map m_year merged) /\
      Sum s = Some (Z2Qc (Z_sum (map snd freq))).
Proof.
  eexists. eexists. split; [vm_compute; reflexivity|].
  eapply (app_page_is_consistent (RT := ref_runtime)
            ex_gia ex_berk ex_josep ex_bar ex_shrey).
  vm_compute. reflexivity.
Defined.

(** ** File paths *)

Lemma ends_with_sep_app (a b : string) :
  b <> ""%string -> ends_with_sep (a ++ b) = ends_with_sep b.
Proof.
  intros Hb. induction a as [|c a IH]; [reflexivity|].
  simpl append. simpl ends_with_sep.
  destruct (a ++ b)%string as [|c' s'] eqn:E.
  - destruct a; simpl in E; [congruence | discriminate].
  - exact IH.
Qed.

Lemma append_inv_head (p a b : string) :
  (p ++ a)%string = (p ++ b)%string -> a = b.
Proof.
  induction p as [|c p IH]; simpl; [auto|]. intros [= E]. auto.
Qed.

Lemma append_assoc' (a b c : string) :
  ((a ++ b) ++ c)%string = (a ++ (b ++ c))%string.
Proof.
  induction a as [|x a IH]; simpl; [reflexivity|]. now rewrite IH.
Qed.

Lemma append_nonempty (a b : string) : b <> ""%string -> (a ++ b)%string <> ""%string.
Proof.
  destruct a; simpl; [auto | discriminate].
Qed.

Lemma csv_path_relative (base_path filename : string) :
  starts_with_sep filename = false ->
  _csv_path base_path filename =
  ((if String.eqb base_path "" || ends_with_sep base_path
    then base_path else base_path ++ "/")
   ++ "Cleaned Data/Cleaned Data/" ++ filename)%string.
Proof.
  intros Hf. unfold _csv_path, path_join. cbn [fold_left].
  change DATA_DIR_NAME with "Cleaned Data/Cleaned Data"%string.
  unfold path_join2 at 2. cbn [starts_with_sep].
  set (pre := if String.eqb base_path "" || ends_with_sep base_path
              then base_path else (base_path ++ "/")%string).
  assert (E1 : (if String.eqb base_path "" || ends_with_sep base_path
                then (base_path ++ "Cleaned Data/Cleaned Data")%string
                else (base_path ++ "/" ++ "Cleaned Data/Cleaned Data")%string)
               = (pre ++ "Cleaned Data/Cleaned Data")%string).
  { subst pre. destruct (String.eqb base_path "" || ends_with_sep base_path);
      [reflexivity|]. now rewrite append_assoc'. }
  rewrite E1. unfold path_join2. rewrite Hf.
  assert (Hne : (pre ++ "Cleaned Data/Cleaned Data")%string <> ""%string)
    by (apply append_nonempty; discriminate).
  assert (E2 : String.eqb (pre ++ "Cleaned Data/Cleaned Data") "" = false)
    by (now apply String.eqb_neq).
  assert (E3 : ends_with_sep (pre ++ "Cleaned Data/Cleaned Data") = false)
    by (rewrite ends_with_sep_app by discriminate; reflexivity).
  rewrite E2, E3. cbn [orb]. rewrite append_assoc'. reflexivity.
Qed.

(** X20.  For a file name that does not start with the separator,
    [_csv_path] puts the file in the folder Cleaned Data/Cleaned Data below
    the base path, adding a separator after the base path only when it is
    needed; so two such names have the same path only if they are the same
    name. *)
Theorem csv_path_in_data_folder (base_path f1 f2 : string) :
  starts_with_sep f1 = false -> starts_with_sep f2 = false ->
  _csv_path base_path f1 =
    ((if String.eqb base_path "" || ends_with_sep base_path
      then base_path else base_path ++ "/")
     ++ "Cleaned Data/Cleaned Data/" ++ f1)%string /\
  (_csv_path base_path f1 = _csv_path base_path f2 -> f1 = f2).
Proof.
  intros H1 H2. split; [now apply csv_path_relative|].
  rewrite !csv_path_relative by assumption. intros E.
  apply append_inv_head in E.
  now apply (append_inv_head "Cleaned Data/Cleaned Data/") in E.
Qed.

Lemma csv_path_in_data_folder_witness :
  starts_with_sep "Berkeley_Earth_Temps_Cleaned.csv" = false /\
  starts_with_sep "Josep_Ferrer_Temps_Cleaned.csv" = false /\
  _csv_path "." "Berkeley_Earth_Temps_Cleaned.csv" =
    ((if String.eqb "." "" || ends_with_sep "."
      then "." else "." ++ "/")
     ++ "Cleaned Data/Cleaned Data/" ++ "Berkeley_Earth_Temps_Cleaned.csv")%string /\
  (_csv_path "." "Berkeley_Earth_Temps_Cleaned.csv" =
   _csv_path "." "Josep_Ferrer_Temps_Cleaned.csv" ->
   "Berkeley_Earth_Temps_Cleaned.csv"%string = "Josep_Ferrer_Temps_Cleaned.csv"%string).
Proof.
  split; [reflexivity|]. split; [reflexivity|].
  exact (csv_path_in_data_folder "." "Berkeley_Earth_Temps_Cleaned.csv"
           "Josep_Ferrer_Temps_Cleaned.csv" eq_refl eq_refl).
Defined.

(** X21.  In a run of the temperature loader that returns, every row of
    the cleaned table stems from one row of the file its label names: a
    Gia row carries the temperature cell of the file as it is; a Berkeley
    row carries [c * 9 / 5 + 32] for the Celsius number [c] of the file and
    the year of its parsed date; a Josep row carries what [to_numeric] makes
    of the cell, without conversion, and the year of its parsed date. *)
Theorem temps_all_row_origin `{RT : PandasRuntime}
    (gia : list gia_row) (berk : list berk_row) (josep : list josep_row)
    (temps_all : list temp_row) (temps_annual : list (Z * float64))
    (e : temp_row) :
  load_temperature_data gia berk josep = Ok (temps_all, temps_annual) ->
  In e temps_all ->
  match t_source e with
  | Gia_Bach_Nguyen =>
      exists g, In g gia /\
        t_TempF e = gia_Average_Fahrenheit_Temperature g /\
        astype_int (gia_Year g) = Ok (t_year e)
  | Berkeley_Earth =>
      exists b c ts, In b berk /\
        berk_LandAndOceanAverageTemperature b = Flt c /\
        t_TempF e = Flt (c * Z2Qc 9 / Z2Qc 5 + Z2Qc 32)%Qc /\
        to_datetime (map berk_dt berk) (berk_dt b) = Some ts /\
        t_year e = ts_year ts
  | Josep_Ferrer =>
      exists j ts, In j josep /\
        t_TempF e = to_numeric (josep_TemperatureFahrenheit j) /\
        to_datetime (map josep_EventDate josep) (josep_EventDate j) = Some ts /\
        t_year e = ts_year ts
  end.
Proof.
  apply temps_all_origin.
Qed.

Lemma temps_all_row_origin_witness :
  exists temps_all temps_annual e,
    load_temperature_data (RT := ref_runtime) ex_gia ex_berk ex_josep
      = Ok (temps_all, temps_annual) /\
    In e temps_all /\
    t_source e = Berkeley_Earth /\
    match t_source e with
    | Gia_Bach_Nguyen =>
        exists g, In g ex_gia /\
          t_TempF e = gia_Average_Fahrenheit_Temperature g /\
          astype_int (RT := ref_runtime) (gia_Year g) = Ok (t_year e)
    | Berkeley_Earth =>
        exists b c ts, In b ex_berk /\
          berk_LandAndOceanAverageTemperature b = Flt c /\
          t_TempF e = Flt (c * Z2Qc 9 / Z2Qc 5 + Z2Qc 32)%Qc /\
          to_datetime (PandasRuntime := ref_runtime)
            (map berk_dt ex_berk) (berk_dt b) = Some ts /\
          t_year e = ts_year ts
    | Josep_Ferrer =>
        exists j ts, In j ex_josep /\
          t_TempF e = to_numeric (RT := ref_runtime)
                        (josep_TemperatureFahrenheit j) /\
          to_datetime (PandasRuntime := ref_runtime)
            (map josep_EventDate ex_josep) (josep_EventDate j) = Some ts /\
          t_year e = ts_year ts
    end.
Proof.
  eexists. eexists. eexists. split; [vm_compute; reflexivity|].
  split; [right; left; reflexivity|]. split; [reflexivity|].
  eapply (temps_all_row_origin (RT := ref_runtime) ex_gia ex_berk ex_josep).
  - vm_compute. reflexivity.
  - right. left. reflexivity.
Defined.
